(** * Contemplative Science Digest: item model, relevance scorer,
      deduplication store and pipeline, embedded from the Python sources.

    Layout: the Python values the program manipulates (exceptions,
    datetimes and their ISO-8601 text, dynamically typed dictionaries),
    then one module per source file, then the properties. *)

From Stdlib Require Import ZArith String Ascii List Lia Bool.
From stdpp Require Import base option list gmap strings sorting.

Open Scope Z_scope.

(** ** Python prelude *)

Module Py.

(** Exceptions the modelled code can raise or catch. *)
Inductive exn :=
| KeyError | ValueError | TypeError | AttributeError | OverflowError
| OSError            (* [IOError] is an alias of [OSError] *)
| JSONDecodeError    (* a subclass of [ValueError] *)
| UnicodeDecodeError (* a subclass of [ValueError], not of [JSONDecodeError] *).

Inductive result (A : Type) :=
| Ok (a : A)
| Raise (e : exn).
Arguments Ok {A} a.
Arguments Raise {A} e.

Definition bind {A B} (r : result A) (k : A -> result B) : result B :=
  match r with
  | Ok a => k a
  | Raise e => Raise e
  end.

(** Text. A character of a [string] stands for the Unicode code point
    of its number, so that a [string] is a Python [str] of code points
    below 256 (Basic Latin and the Latin-1 Supplement); text with other
    characters is not represented.

    [str.lower], one character: the upper-case letters below 256 are
    A to Z and the letters from 192 to 222 without the multiplication
    sign 215; each has its lower-case form 32 places on. *)
Definition lower_char (c : ascii) : ascii :=
  let n := N_of_ascii c in
  if (((65 <=? n) && (n <=? 90))
      || ((192 <=? n) && (n <=? 214)) || ((216 <=? n) && (n <=? 222)))%N
  then ascii_of_N (n + 32) else c.

Definition chars (s : string) : list ascii := list_ascii_of_string s.
Definition str (l : list ascii) : string := string_of_list_ascii l.

Definition lower (s : string) : string := str (map lower_char (chars s)).

(** [sep.join(parts)] *)
Fixpoint join (sep : string) (parts : list string) : string :=
  match parts with
  | [] => EmptyString
  | [p] => p
  | p :: ps => p +:+ sep +:+ join sep ps
  end.

(** *** [datetime.datetime]: the date and time fields, which are the
    whole of a naive object (no [tzinfo]), as [datetime.utcnow],
    [datetime.strptime] and the [datetime(y, m, d, ...)] constructor
    build it. The objects that carry a UTC offset come further down
    ([pydatetime]). *)
Record datetime := mkdt {
  year : Z; month : Z; day : Z;
  hour : Z; minute : Z; second : Z; microsecond : Z
}.

#[global] Instance datetime_eq_dec : EqDecision datetime.
Proof. solve_decision. Defined.

Definition is_leap (y : Z) : bool :=
  (y mod 4 =? 0) && (negb (y mod 100 =? 0) || (y mod 400 =? 0)).

Definition days_in_month (y m : Z) : Z :=
  if (m =? 2) && is_leap y then 29
  else nth (Z.to_nat m) [0; 31; 28; 31; 30; 31; 30; 31; 31; 30; 31; 30; 31] 0.

Definition days_before_month (y m : Z) : Z :=
  nth (Z.to_nat m) [0; 0; 31; 59; 90; 120; 151; 181; 212; 243; 273; 304; 334] 0
  + (if (2 <? m) && is_leap y then 1 else 0).

(** The range checks of the [datetime] constructor. *)
Definition datetime_ok (d : datetime) : bool :=
  (1 <=? year d) && (year d <=? 9999) &&
  (1 <=? month d) && (month d <=? 12) &&
  (1 <=? day d) && (day d <=? days_in_month (year d) (month d)) &&
  (0 <=? hour d) && (hour d <? 24) &&
  (0 <=? minute d) && (minute d <? 60) &&
  (0 <=? second d) && (second d <? 60) &&
  (0 <=? microsecond d) && (microsecond d <? 1000000).

(** Comparison of naive datetimes: lexicographic on the fields. *)
Definition dt_key (d : datetime) : list Z :=
  [year d; month d; day d; hour d; minute d; second d; microsecond d].

Fixpoint lex_compare (a b : list Z) : comparison :=
  match a, b with
  | [], [] => Eq
  | [], _ :: _ => Lt
  | _ :: _, [] => Gt
  | x :: a', y :: b' =>
      match x ?= y with
      | Eq => lex_compare a' b'
      | c => c
      end
  end.

Definition dt_compare (a b : datetime) : comparison :=
  lex_compare (dt_key a) (dt_key b).

Definition dt_ltb (a b : datetime) : bool :=
  match dt_compare a b with Lt => true | _ => false end.

(** Proleptic Gregorian ordinals, as [datetime.toordinal] and
    [datetime.fromordinal] compute them. *)
Definition days_before_year (y : Z) : Z :=
  let p := y - 1 in p * 365 + p / 4 - p / 100 + p / 400.

Definition ymd2ord (y m d : Z) : Z :=
  days_before_year y + days_before_month y m + d.

Definition ord2ymd (n0 : Z) : Z * Z * Z :=
  let n := n0 - 1 in
  let n400 := n / 146097 in let n := n mod 146097 in
  let n100 := n / 36524 in let n := n mod 36524 in
  let n4 := n / 1461 in let n := n mod 1461 in
  let n1 := n / 365 in let n := n mod 365 in
  let y := n400 * 400 + 1 + n100 * 100 + n4 * 4 + n1 in
  if (n1 =? 4) || (n100 =? 4) then (y - 1, 12, 31)
  else
    let leapyear := (n1 =? 3) && (negb (n4 =? 24) || (n100 =? 3)) in
    let m := (n + 50) / 32 in
    let preceding :=
      nth (Z.to_nat m) [0; 0; 31; 59; 90; 120; 151; 181; 212; 243; 273; 304; 334] 0
      + (if (2 <? m) && leapyear then 1 else 0) in
    if n <? preceding then
      let m' := m - 1 in
      let preceding' :=
        preceding
        - (nth (Z.to_nat m') [0; 31; 28; 31; 30; 31; 30; 31; 31; 30; 31; 30; 31] 0
           + (if (m' =? 2) && leapyear then 1 else 0)) in
      (y, m', n - preceding' + 1)
    else (y, m, n - preceding + 1).

(** [d - timedelta(days=n)]: [OverflowError] when the [timedelta] or the
    resulting date is out of range. *)
Definition sub_days (d : datetime) (n : Z) : result datetime :=
  if (n <? -999999999) || (999999999 <? n) then Raise OverflowError
  else
    let o := ymd2ord (year d) (month d) (day d) - n in
    if (o <? 1) || (3652059 <? o) then Raise OverflowError
    else
      let '(y, m, dd) := ord2ymd o in
      Ok (mkdt y m dd (hour d) (minute d) (second d) (microsecond d)).

(** *** ISO-8601 text *)

Definition digit_char (d : Z) : ascii := ascii_of_N (48 + Z.to_N d).

Definition char_digit (c : ascii) : option Z :=
  let n := Z.of_N (N_of_ascii c) in
  if (48 <=? n) && (n <=? 57) then Some (n - 48) else None.

(** ["%0kd" % n] for [0 <= n < 10^k] *)
Fixpoint zfill (k : nat) (n : Z) : list ascii :=
  match k with
  | O => []
  | S k' => digit_char ((n / 10 ^ Z.of_nat k') mod 10) :: zfill k' n
  end.

(** The time of day, with the microseconds when they are not zero. *)
Definition time_chars (d : datetime) : list ascii :=
  zfill 2 (hour d) ++ chars ":" ++ zfill 2 (minute d) ++ chars ":" ++
  zfill 2 (second d) ++
  (if microsecond d =? 0 then [] else chars "." ++ zfill 6 (microsecond d)).

Definition isoformat_chars (d : datetime) : list ascii :=
  zfill 4 (year d) ++ chars "-" ++ zfill 2 (month d) ++ chars "-" ++
  zfill 2 (day d) ++ chars "T" ++ time_chars d.

(** [datetime.isoformat()] *)
Definition isoformat (d : datetime) : string := str (isoformat_chars d).

Fixpoint read_digits (k : nat) (acc : Z) (s : list ascii)
  : option (Z * list ascii) :=
  match k with
  | O => Some (acc, s)
  | S k' =>
      match s with
      | c :: s' =>
          match char_digit c with
          | Some d => read_digits k' (acc * 10 + d) s'
          | None => None
          end
      | [] => None
      end
  end.

Definition expect (c : ascii) (s : list ascii) : option (list ascii) :=
  match s with
  | c' :: s' => if Ascii.eqb c c' then Some s' else None
  | [] => None
  end.

(** [HH[:MM[:SS[.fff[fff]]]]], the whole of [s]. *)
Definition parse_hh_mm_ss_ff (s : list ascii) : option (Z * Z * Z * Z) :=
  match read_digits 2 0 s with
  | None => None
  | Some (hh, []) => Some (hh, 0, 0, 0)
  | Some (hh, s1) =>
      match expect ":" s1 with
      | None => None
      | Some s2 =>
          match read_digits 2 0 s2 with
          | None => None
          | Some (mm, []) => Some (hh, mm, 0, 0)
          | Some (mm, s3) =>
              match expect ":" s3 with
              | None => None
              | Some s4 =>
                  match read_digits 2 0 s4 with
                  | None => None
                  | Some (ss, []) => Some (hh, mm, ss, 0)
                  | Some (ss, s5) =>
                      match expect "." s5 with
                      | None => None
                      | Some s6 =>
                          match read_digits 6 0 s6 with
                          | Some (us, []) => Some (hh, mm, ss, us)
                          | Some (_, _ :: _) => None
                          | None =>
                              match read_digits 3 0 s6 with
                              | Some (ms, []) => Some (hh, mm, ss, ms * 1000)
                              | _ => None
                              end
                          end
                      end
                  end
              end
          end
      end
  end.

(** A character that is not the sign of a UTC offset. *)
Definition no_sign (c : ascii) : Prop :=
  Ascii.eqb "-" c = false ∧ Ascii.eqb "+" c = false.

(** Split a time string at its UTC-offset sign: the first ["-"] if there
    is one, else the first ["+"]. *)
Fixpoint split_at (c : ascii) (s : list ascii)
  : option (list ascii * list ascii) :=
  match s with
  | [] => None
  | c' :: s' =>
      if Ascii.eqb c c' then Some ([], s')
      else match split_at c s' with
           | Some (a, b) => Some (c' :: a, b)
           | None => None
           end
  end.

Definition split_offset (s : list ascii)
  : list ascii * option (bool * list ascii) :=
  match split_at "-" s with
  | Some (a, b) => (a, Some (true, b))
  | None =>
      match split_at "+" s with
      | Some (a, b) => (a, Some (false, b))
      | None => (s, None)
      end
  end.

(** What [datetime.fromisoformat] does with a string: a naive datetime,
    an offset-aware one (the offset in microseconds), or [ValueError]. *)
Inductive iso_result :=
| IsoNaive (d : datetime)
| IsoAware (d : datetime) (utcoffset : Z)
| IsoValueError.

(** The UTC offset read after the sign. An offset whose hours, minutes
    and seconds are all zero is read as UTC, whatever its microseconds;
    an offset of a day or more is refused by [timezone]. *)
Definition parse_offset (neg : bool) (s : list ascii) : option Z :=
  if (length s =? 5)%nat || (length s =? 8)%nat || (length s =? 15)%nat then
    match parse_hh_mm_ss_ff s with
    | Some (hh, mm, ss, us) =>
        let seconds := (hh * 60 + mm) * 60 + ss in
        if seconds =? 0 then Some 0
        else
          let off := seconds * 1000000 + us in
          if off <? 86400000000 then Some (if neg then - off else off)
          else None
    | None => None
    end
  else None.

(** [datetime.fromisoformat], for the format
    [YYYY-MM-DD[*HH[:MM[:SS[.fff[fff]]]][+HH:MM[:SS[.ffffff]]]]], which is
    what [isoformat] writes and all that Python 3.7 to 3.10 read; later
    versions read further ISO-8601 forms, which are [ValueError] here. *)
Definition fromisoformat_chars (s : list ascii) : iso_result :=
  match read_digits 4 0 s with
  | None => IsoValueError
  | Some (y, s1) =>
  match expect "-" s1 with
  | None => IsoValueError
  | Some s2 =>
  match read_digits 2 0 s2 with
  | None => IsoValueError
  | Some (m, s3) =>
  match expect "-" s3 with
  | None => IsoValueError
  | Some s4 =>
  match read_digits 2 0 s4 with
  | None => IsoValueError
  | Some (d, s5) =>
      let finish (t : Z * Z * Z * Z) (tz : option Z) :=
        let '(hh, mm, ss, us) := t in
        let dt := mkdt y m d hh mm ss us in
        if datetime_ok dt then
          match tz with
          | None => IsoNaive dt
          | Some off => IsoAware dt off
          end
        else IsoValueError in
      match s5 with
      | [] => finish (0, 0, 0, 0) None
      | [_] => IsoValueError
      | _ :: tstr =>
          let '(timestr, tz) := split_offset tstr in
          match parse_hh_mm_ss_ff timestr with
          | None => IsoValueError
          | Some t =>
              match tz with
              | None => finish t None
              | Some (neg, tzstr) =>
                  match parse_offset neg tzstr with
                  | Some off => finish t (Some off)
                  | None => IsoValueError
                  end
              end
          end
      end
  end end end end end.

Definition fromisoformat (s : string) : iso_result :=
  fromisoformat_chars (chars s).

(** *** A [datetime] object: naive, or aware of its UTC offset. The
    aware ones of the program have a [tzinfo] of fixed offset
    ([datetime.timezone]), in microseconds here: [fromisoformat] builds
    them from a string with an offset, and
    [email.utils.parsedate_to_datetime] from the date of a feed entry. *)
Inductive pydatetime :=
| Naive (d : datetime)
| Aware (d : datetime) (utcoffset : Z).

Definition is_aware (v : pydatetime) : bool :=
  match v with Naive _ => false | Aware _ _ => true end.

(** The range checks of the [datetime] and [timezone] constructors:
    the offset lies strictly between minus and plus one day. *)
Definition pydatetime_ok (v : pydatetime) : bool :=
  match v with
  | Naive d => datetime_ok d
  | Aware d off =>
      datetime_ok d && (-86400000000 <? off) && (off <? 86400000000)
  end.

(** The microseconds from the start of the calendar to the moment that
    the fields [d] denote at the UTC offset [off]. *)
Definition instant (d : datetime) (off : Z) : Z :=
  (((ymd2ord (year d) (month d) (day d) * 24 + hour d) * 60 + minute d) * 60
   + second d) * 1000000 + microsecond d - off.

(** [a == b]: two naive objects are equal when their fields are, two
    aware ones when they denote the same moment; a naive object and an
    aware one are never equal. *)
Definition datetime_eq (a b : pydatetime) : bool :=
  match a, b with
  | Naive x, Naive y => bool_decide (x = y)
  | Aware x ox, Aware y oy => instant x ox =? instant y oy
  | _, _ => false
  end.

(** The order of two objects, as [a < b] and [a > b] find it: naive
    objects by their fields, aware ones by the moments they denote;
    [TypeError] ("can't compare offset-naive and offset-aware
    datetimes") between a naive object and an aware one. *)
Definition datetime_compare (a b : pydatetime) : result comparison :=
  match a, b with
  | Naive x, Naive y => Ok (dt_compare x y)
  | Aware x ox, Aware y oy => Ok (instant x ox ?= instant y oy)
  | _, _ => Raise TypeError
  end.

(** The UTC offset as [isoformat] writes it after the sign: hours and
    minutes, then the seconds if the offset is not a whole minute, then
    the microseconds if it is not a whole second. *)
Definition offset_body (a : Z) : list ascii :=
  zfill 2 (a / 3600000000) ++ chars ":" ++
  zfill 2 ((a mod 3600000000) / 60000000) ++
  (if a mod 60000000 =? 0 then []
   else chars ":" ++ zfill 2 ((a mod 60000000) / 1000000) ++
        (if a mod 1000000 =? 0 then []
         else chars "." ++ zfill 6 (a mod 1000000))).

Definition offset_chars (off : Z) : list ascii :=
  (if off <? 0 then chars "-" else chars "+") ++ offset_body (Z.abs off).

(** [datetime.isoformat()] of either kind of object *)
Definition py_isoformat (v : pydatetime) : string :=
  match v with
  | Naive d => isoformat d
  | Aware d off => str (isoformat_chars d ++ offset_chars off)
  end.

(** The result of [fromisoformat] that stands for the object [v]. *)
Definition parsed (v : pydatetime) : iso_result :=
  match v with
  | Naive d => IsoNaive d
  | Aware d off => IsoAware d off
  end.

(** An offset that [fromisoformat] reads back as [isoformat] wrote it:
    zero, or a second or more in size. *)
Definition whole_offset (v : pydatetime) : bool :=
  match v with
  | Naive _ => true
  | Aware _ off => (off =? 0) || (1000000 <=? Z.abs off)
  end.

(** The object that comes back from the text of [v]. *)
Definition read_back (v : pydatetime) : pydatetime :=
  match v with
  | Naive d => Naive d
  | Aware d off => Aware d (if Z.abs off <? 1000000 then 0 else off)
  end.

End Py.

Import Py.


(** ** src/models/items.py *)

Module Items.
Import Py.

Inductive ItemType := PAPER | ARTICLE.
Inductive SourceType := SEMANTIC_SCHOLAR | PUBMED | RSS.

(** The [.value] of each enum member. *)
Definition ItemType_value (t : ItemType) : string :=
  match t with PAPER => "paper" | ARTICLE => "article" end.

Definition SourceType_value (t : SourceType) : string :=
  match t with
  | SEMANTIC_SCHOLAR => "semantic_scholar"
  | PUBMED => "pubmed"
  | RSS => "rss"
  end.

Record Author := mkAuthor {
  name : string;
  author_id : option string;
  affiliation : option string
}.

Record DigestItem := mkItem {
  title : string;
  url : string;
  item_type : ItemType;
  source_type : SourceType;
  date_published : option pydatetime;
  date_fetched : pydatetime;
  doi : option string;
  authors : list Author;
  abstract : option string;
  journal : option string;
  year : option Z;
  source_name : option string;
  excerpt : option string;
  relevance_score : Z;               (* annotated [float]; only ever
                                        assigned [len(matched)] *)
  matched_keywords : list string
}.

(** Truthiness of an optional string: [None] and the empty string are
    falsy. *)
Definition nonempty (o : option string) : option string :=
  match o with
  | Some EmptyString => None
  | other => other
  end.

(** [DigestItem.get_unique_id] *)
Definition get_unique_id (self : DigestItem) : string :=
  match nonempty (doi self) with
  | Some d => "doi:" +:+ d
  | None => "url:" +:+ url self
  end.

(** *** Dynamically typed values: what the dictionaries read and written
    by [to_dict] and [from_dict], and the JSON files, can hold. JSON
    numbers are integers here. A Python [dict] with string keys is an
    association list in insertion order, without repeated keys. *)
#[warnings="-register-all"] Inductive pyval :=
| PNone
| PBool (b : bool)
| PInt (z : Z)
| PStr (s : string)
| PList (l : list pyval)
| PDict (d : list (string * pyval))
| PItemType (t : ItemType)
| PSourceType (t : SourceType)
| PDatetime (d : datetime)
| PDatetimeAware (d : datetime) (utcoffset : Z)
| PAuthor (a_name a_id a_affiliation : pyval).

Abbreviation pydict := (list (string * pyval)).

Definition truthy (v : pyval) : bool :=
  match v with
  | PNone => false
  | PBool b => b
  | PInt z => negb (z =? 0)
  | PStr s => negb (String.eqb s EmptyString)
  | PList l => match l with [] => false | _ => true end
  | PDict d => match d with [] => false | _ => true end
  | _ => true
  end.

(** [d.get(k)] as an option; [d[k]] raises [KeyError] when absent. *)
Fixpoint dict_get (k : string) (d : pydict) : option pyval :=
  match d with
  | [] => None
  | (k', v) :: d' => if String.eqb k k' then Some v else dict_get k d'
  end.

Definition dict_get_default (k : string) (dflt : pyval) (d : pydict) : pyval :=
  match dict_get k d with Some v => v | None => dflt end.

Definition dict_item (k : string) (d : pydict) : result pyval :=
  match dict_get k d with Some v => Ok v | None => Raise KeyError end.

(** [d[k] = v]: an existing key keeps its position, a new one goes last. *)
Fixpoint dict_set (k : string) (v : pyval) (d : pydict) : pydict :=
  match d with
  | [] => [(k, v)]
  | (k', v') :: d' =>
      if String.eqb k k' then (k, v) :: d' else (k', v') :: dict_set k v d'
  end.

Definition opt_str (o : option string) : pyval :=
  match o with Some s => PStr s | None => PNone end.
Definition opt_int (o : option Z) : pyval :=
  match o with Some z => PInt z | None => PNone end.
(** A [datetime] object, as a dynamically typed value. *)
Definition datetime_value (v : pydatetime) : pyval :=
  match v with
  | Naive d => PDatetime d
  | Aware d off => PDatetimeAware d off
  end.
Definition opt_datetime (o : option pydatetime) : pyval :=
  match o with Some d => datetime_value d | None => PNone end.

(** [dataclasses.asdict] on an [Author] and on a [DigestItem]: nested
    dataclasses become dictionaries, other values are copied. *)
Definition asdict_author (a : Author) : pyval :=
  PDict [("name"%string, PStr (name a));
         ("author_id"%string, opt_str (author_id a));
         ("affiliation"%string, opt_str (affiliation a))].

Definition asdict (self : DigestItem) : pydict :=
  [("title"%string, PStr (title self));
   ("url"%string, PStr (url self));
   ("item_type"%string, PItemType (item_type self));
   ("source_type"%string, PSourceType (source_type self));
   ("date_published"%string, opt_datetime (date_published self));
   ("date_fetched"%string, datetime_value (date_fetched self));
   ("doi"%string, opt_str (doi self));
   ("authors"%string, PList (map asdict_author (authors self)));
   ("abstract"%string, opt_str (abstract self));
   ("journal"%string, opt_str (journal self));
   ("year"%string, opt_int (year self));
   ("source_name"%string, opt_str (source_name self));
   ("excerpt"%string, opt_str (excerpt self));
   ("relevance_score"%string, PInt (relevance_score self));
   ("matched_keywords"%string, PList (map PStr (matched_keywords self)))].

(** [DigestItem.to_dict] *)
Definition to_dict (self : DigestItem) : pydict :=
  let data := asdict self in
  let data := dict_set "item_type" (PStr (ItemType_value (item_type self))) data in
  let data := dict_set "source_type" (PStr (SourceType_value (source_type self))) data in
  let data :=
    match date_published self with
    | Some d => dict_set "date_published" (PStr (py_isoformat d)) data
    | None => data
    end in
  dict_set "date_fetched" (PStr (py_isoformat (date_fetched self))) data.

(** [ItemType(v)] and [SourceType(v)]: lookup by value; a member of the
    enum itself is returned as it is; anything else is a [ValueError]. *)
Definition ItemType_of (v : pyval) : result ItemType :=
  match v with
  | PItemType t => Ok t
  | PStr s =>
      if String.eqb s "paper" then Ok PAPER
      else if String.eqb s "article" then Ok ARTICLE
      else Raise ValueError
  | _ => Raise ValueError
  end.

Definition SourceType_of (v : pyval) : result SourceType :=
  match v with
  | PSourceType t => Ok t
  | PStr s =>
      if String.eqb s "semantic_scholar" then Ok SEMANTIC_SCHOLAR
      else if String.eqb s "pubmed" then Ok PUBMED
      else if String.eqb s "rss" then Ok RSS
      else Raise ValueError
  | _ => Raise ValueError
  end.

(** [datetime.fromisoformat(v)] on a dynamically typed argument. *)
Definition py_fromisoformat (v : pyval) : result pyval :=
  match v with
  | PStr s =>
      match fromisoformat s with
      | IsoNaive d => Ok (PDatetime d)
      | IsoAware d off => Ok (PDatetimeAware d off)
      | IsoValueError => Raise ValueError
      end
  | _ => Raise TypeError
  end.

(** Calling a dataclass with a dictionary of keyword arguments: an unknown key or
    a missing required field is a [TypeError]. *)
Definition check_kwargs (fields required : list string) (kw : pydict)
  : result unit :=
  if forallb (fun '(k, _) => existsb (String.eqb k) fields) kw
     && forallb (fun k => match dict_get k kw with Some _ => true | None => false end)
                required
  then Ok tt else Raise TypeError.

(** [Author] called with the keyword arguments [a] *)
Definition Author_kwargs (a : pyval) : result pyval :=
  match a with
  | PDict kw =>
      bind (check_kwargs ["name"; "author_id"; "affiliation"]%string
                         ["name"%string] kw)
        (fun _ => Ok (PAuthor (dict_get_default "name" PNone kw)
                              (dict_get_default "author_id" PNone kw)
                              (dict_get_default "affiliation" PNone kw)))
  | _ => Raise TypeError
  end.

(** The values a [for] loop draws from [v]. *)
Definition iterate (v : pyval) : result (list pyval) :=
  match v with
  | PList l => Ok l
  | PDict d => Ok (map (fun '(k, _) => PStr k) d)
  | PStr s => Ok (map (fun c => PStr (String c EmptyString)) (chars s))
  | _ => Raise TypeError
  end.

Fixpoint map_result {A B} (f : A -> result B) (l : list A) : result (list B) :=
  match l with
  | [] => Ok []
  | a :: l' =>
      bind (f a) (fun b => bind (map_result f l') (fun bs => Ok (b :: bs)))
  end.

(** The assignments of [from_dict], which rewrite the caller's dictionary
    in place; the result is that dictionary after them. *)
Definition from_dict_assignments (data : pydict) : result pydict :=
  bind (dict_item "item_type" data) (fun v =>
  bind (ItemType_of v) (fun t =>
  let data := dict_set "item_type" (PItemType t) data in
  bind (dict_item "source_type" data) (fun v =>
  bind (SourceType_of v) (fun t =>
  let data := dict_set "source_type" (PSourceType t) data in
  bind (if truthy (dict_get_default "date_published" PNone data)
        then bind (dict_item "date_published" data) (fun v =>
             bind (py_fromisoformat v) (fun d =>
             Ok (dict_set "date_published" d data)))
        else Ok data) (fun data =>
  bind (if truthy (dict_get_default "date_fetched" PNone data)
        then bind (dict_item "date_fetched" data) (fun v =>
             bind (py_fromisoformat v) (fun d =>
             Ok (dict_set "date_fetched" d data)))
        else Ok data) (fun data =>
  bind (iterate (dict_get_default "authors" (PList []) data)) (fun l =>
  bind (map_result Author_kwargs l) (fun l' =>
  Ok (dict_set "authors" (PList l') data))))))))).

(** Reading typed fields out of keyword arguments; [None] when the value
    does not have the annotated type. *)
Definition as_str (v : pyval) : option string :=
  match v with PStr s => Some s | _ => None end.
Definition as_opt_str (v : pyval) : option (option string) :=
  match v with PNone => Some None | PStr s => Some (Some s) | _ => None end.
Definition as_opt_int (v : pyval) : option (option Z) :=
  match v with PNone => Some None | PInt z => Some (Some z) | _ => None end.
Definition as_int (v : pyval) : option Z :=
  match v with PInt z => Some z | _ => None end.
Definition as_datetime (v : pyval) : option pydatetime :=
  match v with
  | PDatetime d => Some (Naive d)
  | PDatetimeAware d off => Some (Aware d off)
  | _ => None
  end.
Definition as_opt_datetime (v : pyval) : option (option pydatetime) :=
  match v with
  | PNone => Some None
  | _ => Some <$> as_datetime v
  end.
Definition as_item_type (v : pyval) : option ItemType :=
  match v with PItemType t => Some t | _ => None end.
Definition as_source_type (v : pyval) : option SourceType :=
  match v with PSourceType t => Some t | _ => None end.
Definition as_author (v : pyval) : option Author :=
  match v with
  | PAuthor n i a =>
      n' ← as_str n; i' ← as_opt_str i; a' ← as_opt_str a;
      Some (mkAuthor n' i' a')
  | _ => None
  end.
Definition as_list {A} (f : pyval -> option A) (v : pyval) : option (list A) :=
  match v with PList l => mapM f l | _ => None end.

Definition kwarg {A} (k : string) (f : pyval -> option A) (dflt : A)
    (kw : pydict) : option A :=
  match dict_get k kw with Some v => f v | None => Some dflt end.

Definition field_names : list string :=
  ["title"; "url"; "item_type"; "source_type"; "date_published";
   "date_fetched"; "doi"; "authors"; "abstract"; "journal"; "year";
   "source_name"; "excerpt"; "relevance_score"; "matched_keywords"]%string.

(** [DigestItem] called with the keyword arguments [kw]. The generated [__init__] checks the
    keywords, not the types of the values: [Ok None] is an object whose
    fields do not have the annotated types, which the record [DigestItem]
    cannot hold. [now] is what [datetime.utcnow] returns, the default of
    [date_fetched]. *)
Definition DigestItem_kwargs (now : datetime) (kw : pydict)
  : result (option DigestItem) :=
  bind (check_kwargs field_names
          ["title"; "url"; "item_type"; "source_type"]%string kw)
    (fun _ => Ok (
      f1 ← kwarg "title" as_str EmptyString kw;
      f2 ← kwarg "url" as_str EmptyString kw;
      f3 ← kwarg "item_type" as_item_type PAPER kw;
      f4 ← kwarg "source_type" as_source_type RSS kw;
      f5 ← kwarg "date_published" as_opt_datetime None kw;
      f6 ← kwarg "date_fetched" as_datetime (Naive now) kw;
      f7 ← kwarg "doi" as_opt_str None kw;
      f8 ← kwarg "authors" (as_list as_author) [] kw;
      f9 ← kwarg "abstract" as_opt_str None kw;
      f10 ← kwarg "journal" as_opt_str None kw;
      f11 ← kwarg "year" as_opt_int None kw;
      f12 ← kwarg "source_name" as_opt_str None kw;
      f13 ← kwarg "excerpt" as_opt_str None kw;
      f14 ← kwarg "relevance_score" as_int 0 kw;
      f15 ← kwarg "matched_keywords" (as_list as_str) [] kw;
      Some (mkItem f1 f2 f3 f4 f5 f6 f7 f8 f9 f10 f11 f12 f13 f14 f15))).

(** [DigestItem.from_dict]: the caller's dictionary after the call, and
    the item built from it. *)
Definition from_dict (now : datetime) (data : pydict)
  : result (pydict * option DigestItem) :=
  bind (from_dict_assignments data) (fun data' =>
  bind (DigestItem_kwargs now data') (fun item =>
  Ok (data', item))).

(** The [Author] object, as a dynamically typed value. *)
Definition author_object (a : Author) : pyval :=
  PAuthor (PStr (name a)) (opt_str (author_id a)) (opt_str (affiliation a)).

Definition is_datetime_object (v : pyval) : bool :=
  match v with PDatetime _ | PDatetimeAware _ _ => true | _ => false end.

Definition is_author_object (v : pyval) : bool :=
  match v with PAuthor _ _ _ => true | _ => false end.

(** The [datetime] fields of an item: each holds a [datetime] object,
    naive or aware, whose fields and offset are in range, which is the
    invariant of the objects; and no offset is a fraction of a second,
    as none that [email.utils.parsedate_to_datetime] or [fromisoformat]
    attaches is. *)
Definition item_ok (item : DigestItem) : Prop :=
  (pydatetime_ok (date_fetched item) = true
   ∧ whole_offset (date_fetched item) = true)
  ∧ ∀ d, date_published item = Some d →
         pydatetime_ok d = true ∧ whole_offset d = true.

End Items.

(** ** src/config.py: the constants the filters default to *)

Module Config.

Definition RSS_FILTER_KEYWORDS : list string :=
  ["meditation"; "mindfulness"; "contemplative"; "consciousness";
   "awareness"; "buddhist"; "buddhism"; "zen"; "yoga"; "introspection";
   "attention"; "self-awareness"; "neuroscience mind";
   "brain consciousness"; "psychedelics"; "mystical"; "spiritual"]%string.

Definition RSS_KEYWORD_THRESHOLD : Z := 1.

Definition ARCHIVE_DAYS : Z := 90.

End Config.

(** ** src/filters/relevance.py *)

Module Relevance.
Import Py Items.

(** The compiled pattern [\b + re.escape(kw) + \b] with [re.IGNORECASE]:
    the keyword, matched literally and without regard to case, between
    two word boundaries. Two characters below 256 match without regard
    to case exactly when their lower-case forms are the same. *)
Record word_pattern := compile { literal : string }.

(** [\w] of a [str] pattern: the underscore and the alphanumeric
    characters, which below 256 are the digits, the letters A to Z and
    a to z, the ordinal indicators 170 and 186, the micro sign 181, the
    superscript digits 178, 179 and 185, the fractions 188 to 190 and
    the letters from 192 to 255 without the signs 215 and 247. *)
Definition is_word_char (c : ascii) : bool :=
  let n := N_of_ascii c in
  (((48 <=? n) && (n <=? 57)) || ((65 <=? n) && (n <=? 90))
   || ((97 <=? n) && (n <=? 122)) || (n =? 95)
   || (n =? 170) || (n =? 178) || (n =? 179) || (n =? 181)
   || (n =? 185) || (n =? 186) || ((188 <=? n) && (n <=? 190))
   || ((192 <=? n) && (n <=? 214)) || ((216 <=? n) && (n <=? 246))
   || (248 <=? n))%N.

Definition is_word (o : option ascii) : bool :=
  match o with Some c => is_word_char c | None => false end.

(** [\b] between the character before a position and the one at it. *)
Definition boundary (before after : option ascii) : bool :=
  xorb (is_word before) (is_word after).

(** The character before a position: the last of what precedes, or
    [prev] when nothing does. *)
Definition last_or (prev : option ascii) (l : list ascii) : option ascii :=
  match last l with Some c => Some c | None => prev end.

(** Match the literal at the start of [text]: the last character
    consumed (or [prev] when the literal is empty) and what follows. *)
Fixpoint match_literal (kw text : list ascii) (prev : option ascii)
  : option (option ascii * list ascii) :=
  match kw with
  | [] => Some (prev, text)
  | p :: kw' =>
      match text with
      | c :: text' =>
          if Ascii.eqb (lower_char p) (lower_char c)
          then match_literal kw' text' (Some c)
          else None
      | [] => None
      end
  end.

Definition match_here (prev : option ascii) (kw text : list ascii) : bool :=
  boundary prev (head text) &&
  match match_literal kw text prev with
  | Some (last, rest) => boundary last (head rest)
  | None => false
  end.

(** Try every start position, left to right. *)
Fixpoint search_from (prev : option ascii) (kw text : list ascii) : bool :=
  match_here prev kw text ||
  match text with
  | [] => false
  | c :: text' => search_from (Some c) kw text'
  end.

(** [pattern.search(text)], as a truth value *)
Definition pattern_search (p : word_pattern) (text : string) : bool :=
  search_from None (chars (literal p)) (chars text).

Record RelevanceFilter := mkRelevanceFilter {
  keywords : list string;
  threshold : Z;
  patterns : list word_pattern
}.

(** [RelevanceFilter.__init__] *)
Definition RelevanceFilter_init (kws : list string) (thr : Z) : RelevanceFilter :=
  {| keywords := map lower kws;
     threshold := thr;
     patterns := map compile kws |}.

Definition present (o : option string) : list string :=
  match nonempty o with Some s => [s] | None => [] end.

Definition text_of (item : DigestItem) : string :=
  let text_parts :=
    present (Some (title item)) ++ present (excerpt item)
    ++ present (abstract item) in
  lower (join " " text_parts).

(** [RelevanceFilter.calculate_relevance] *)
Definition calculate_relevance (self : RelevanceFilter) (item : DigestItem)
  : Z * list string :=
  let text := text_of item in
  let matched :=
    fold_left
      (fun matched '(keyword, pattern) =>
         if pattern_search pattern text then matched ++ [keyword]
         else matched)
      (combine (keywords self) (patterns self)) [] in
  (Z.of_nat (length matched), matched).

(** The two attribute assignments [item.relevance_score = score] and
    [item.matched_keywords = matched]. *)
Definition set_relevance (item : DigestItem) (score : Z) (matched : list string)
  : DigestItem :=
  mkItem (title item) (url item) (item_type item) (source_type item)
         (date_published item) (date_fetched item) (doi item) (authors item)
         (abstract item) (journal item) (year item) (source_name item)
         (excerpt item) score matched.

(** [RelevanceFilter.filter_relevant] *)
Definition filter_relevant (self : RelevanceFilter) (items : list DigestItem)
  : list DigestItem :=
  fold_left
    (fun relevant_items item =>
       let '(score, matched) := calculate_relevance self item in
       if threshold self <=? score
       then relevant_items ++ [set_relevance item score matched]
       else relevant_items)
    items [].

(** The built-in [sorted(l, key=..., reverse=True)]: a stable sort into
    descending key order by comparisons of keys; a comparison that
    raises ends the sort with its exception. A stable sort has one
    possible result, so the algorithm chosen here (insertion) does not
    show in what is returned. It does not show in whether the sort
    raises either, for the keys of [score_and_sort]: two of them cannot
    be compared exactly when their scores are equal and one date is
    naive and the other aware, the sort then has to put all keys of that
    score in one run, which no comparison sort can do without comparing
    a naive date of the run with an aware one. *)
Section Sorted.
Context {A K : Type} (key : A -> K) (cmp : K -> K -> result comparison).

(** [x] may stand before [y] in descending order. *)
Definition not_before (x y : A) : Prop :=
  ∃ c, cmp (key x) (key y) = Ok c ∧ c ≠ Lt.

Fixpoint insert_desc (x : A) (l : list A) : result (list A) :=
  match l with
  | [] => Ok [x]
  | y :: l' =>
      bind (cmp (key x) (key y)) (fun c =>
        match c with
        | Lt => bind (insert_desc x l') (fun r => Ok (y :: r))
        | _ => Ok (x :: l)
        end)
  end.

Fixpoint sorted_reverse (l : list A) : result (list A) :=
  match l with
  | [] => Ok []
  | x :: l' => bind (sorted_reverse l') (insert_desc x)
  end.
End Sorted.

(** [x.date_published or x.date_fetched] *)
Definition effective_date (x : DigestItem) : pydatetime :=
  match date_published x with
  | Some d => d
  | None => date_fetched x
  end.

Definition sort_key (x : DigestItem) : Z * pydatetime :=
  (relevance_score x, effective_date x).

(** Comparison of the key tuples: the scores decide when they differ;
    at equal scores the dates are compared, and a naive date against
    an aware one, which are not equal, raises [TypeError]. *)
Definition key_compare (a b : Z * pydatetime) : result comparison :=
  match fst a ?= fst b with
  | Eq => datetime_compare (snd a) (snd b)
  | c => Ok c
  end.

(** [RelevanceFilter.score_and_sort] *)
Definition score_and_sort (self : RelevanceFilter) (items : list DigestItem)
  : result (list DigestItem) :=
  let items :=
    map (fun item =>
           let '(score, matched) := calculate_relevance self item in
           set_relevance item score matched) items in
  sorted_reverse sort_key key_compare items.

End Relevance.

(** ** src/filters/deduplication.py *)

Module Dedup.
Import Py Items.

(** What the constructor finds at [seen_file]: no file, or a file on
    which [open] and [json.load] either raise or return a JSON value. *)
Inductive read_outcome :=
| ReadRaises (e : exn)
| ReadJson (data : pyval).

Inductive seen_file :=
| FileAbsent
| FilePresent (r : read_outcome).

Inductive log_record :=
| InfoLoaded (n : nat)          (* "Loaded {n} seen items" *)
| ErrorLoadFailed (e : exn)     (* "Failed to load seen items: {e}" *).

(** [data.get("items", {})]: only a dictionary has [get]. *)
Definition py_get (k : string) (dflt : pyval) (data : pyval) : result pyval :=
  match data with
  | PDict d => Ok (dict_get_default k dflt d)
  | _ => Raise AttributeError
  end.

(** [len(v)] *)
Definition py_len (v : pyval) : result nat :=
  match v with
  | PStr s => Ok (String.length s)
  | PList l => Ok (length l)
  | PDict d => Ok (length d)
  | _ => Raise TypeError
  end.

(** [except (json.JSONDecodeError, IOError)] *)
Definition caught_by_load (e : exn) : bool :=
  match e with
  | JSONDecodeError | OSError => true
  | _ => false
  end.

(** [DeduplicationFilter.__init__] with [_load] inlined: the value of
    [self.seen_items] and what was logged, or the exception that leaves
    the constructor. *)
Definition _load (file : seen_file) (seen_items : pyval)
  : result (pyval * list log_record) :=
  match file with
  | FileAbsent => Ok (seen_items, [])
  | FilePresent (ReadRaises e) =>
      if caught_by_load e then Ok (PDict [], [ErrorLoadFailed e])
      else Raise e
  | FilePresent (ReadJson data) =>
      bind (py_get "items" (PDict []) data) (fun seen_items =>
      bind (py_len seen_items) (fun n =>
      Ok (seen_items, [InfoLoaded n])))
  end.

Definition DeduplicationFilter_init (file : seen_file)
  : result (pyval * list log_record) :=
  _load file (PDict []).

(** The filter at work: [seen_items], annotated [dict[str, dict]], and
    the number of readings of [datetime.utcnow] taken so far. *)
Record DeduplicationFilter := mkFilter {
  seen_items : gmap string pydict;
  clock : nat
}.

(** The ["first_seen"] field recorded for the identity of [item]. *)
Definition first_seen_of (self : DeduplicationFilter) (item : DigestItem)
  : option pyval :=
  seen_items self !! get_unique_id item ≫= dict_get "first_seen".

Section Methods.
(** The successive readings of [datetime.utcnow]. *)
Variable utcnow : nat -> datetime.

(** [DeduplicationFilter.is_seen] *)
Definition is_seen (self : DeduplicationFilter) (item : DigestItem) : bool :=
  let uid := get_unique_id item in
  bool_decide (is_Some (seen_items self !! uid)).

(** [DeduplicationFilter.mark_seen] *)
Definition mark_seen (self : DeduplicationFilter) (item : DigestItem)
  : DeduplicationFilter :=
  let uid := get_unique_id item in
  {| seen_items :=
       <[uid := [("title"%string, PStr (title item));
                 ("first_seen"%string,
                  PStr (isoformat (utcnow (clock self))))]]>
         (seen_items self);
     clock := S (clock self) |}.

(** [DeduplicationFilter.filter_new]: the new items and the filter
    afterwards. *)
Definition filter_new (self : DeduplicationFilter) (items : list DigestItem)
  : list DigestItem * DeduplicationFilter :=
  fold_left
    (fun '(new_items, self) item =>
       if negb (is_seen self item)
       then (new_items ++ [item], mark_seen self item)
       else (new_items, self))
    items ([], self).

(** One turn of the loop of [cleanup_old]: whether the entry goes on
    [to_remove]. A [TypeError] (a timestamp that is not a string, or
    one that carries a UTC offset and so does not compare with the
    naive [cutoff]) is not caught by [except ValueError]. *)
Definition expired (cutoff : datetime) (data : pydict) : result bool :=
  let first_seen_str := dict_get_default "first_seen" PNone data in
  if truthy first_seen_str then
    match first_seen_str with
    | PStr s =>
        match fromisoformat s with
        | IsoNaive first_seen => Ok (dt_ltb first_seen cutoff)
        | IsoAware _ _ => Raise TypeError
        | IsoValueError => Ok false
        end
    | _ => Raise TypeError
    end
  else Ok false.

(** The loop over [self.seen_items.items()]. The entries come in the
    order of [map_to_list]; the order does not show in the result, since
    [TypeError] is the only exception of a turn. *)
Fixpoint collect_expired (cutoff : datetime) (entries : list (string * pydict))
  : result (list string) :=
  match entries with
  | [] => Ok []
  | (uid, data) :: rest =>
      bind (expired cutoff data) (fun b =>
      bind (collect_expired cutoff rest) (fun to_remove =>
      Ok (if b then uid :: to_remove else to_remove)))
  end.

(** [DeduplicationFilter.cleanup_old] *)
Definition cleanup_old (self : DeduplicationFilter) (days : Z)
  : result DeduplicationFilter :=
  bind (sub_days (utcnow (clock self)) days) (fun cutoff =>
  bind (collect_expired cutoff (map_to_list (seen_items self)))
    (fun to_remove =>
  Ok {| seen_items :=
          fold_left (fun m uid => delete uid m) to_remove (seen_items self);
        clock := S (clock self) |})).

(** [DeduplicationFilter.deduplicate_within_list] *)
Definition deduplicate_within_list (items : list DigestItem)
  : list DigestItem :=
  fst (fold_left
         (fun '(unique_items, seen_ids) item =>
            let uid := get_unique_id item in
            if bool_decide (uid ∈ (seen_ids : gset string))
            then (unique_items, seen_ids)
            else (unique_items ++ [item], {[uid]} ∪ seen_ids))
         items ([], ∅)).
End Methods.

End Dedup.

(** ** src/main.py *)

Module Main.
Import Py Items Relevance Dedup.

(** What the three clients return to [run_digest]. *)
Record fetched := mkFetched {
  author_papers : list DigestItem;
  ss_keyword_papers : list DigestItem;
  venue_papers : list DigestItem;
  mesh_papers : list DigestItem;
  pubmed_keyword_papers : list DigestItem;
  rss_articles : list DigestItem
}.

Record flags := mkFlags {
  skip_semantic_scholar : bool;
  skip_pubmed : bool;
  skip_rss : bool
}.

Section Pipeline.
Variable utcnow : nat -> datetime.

(** The papers gathered by steps 3 and 4 of [run_digest]. *)
Definition gather_papers (fl : flags) (f : fetched) : list DigestItem :=
  let all_papers := [] in
  let all_papers :=
    if negb (skip_semantic_scholar fl)
    then ((all_papers ++ author_papers f) ++ ss_keyword_papers f)
           ++ venue_papers f
    else all_papers in
  if negb (skip_pubmed fl)
  then (all_papers ++ mesh_papers f) ++ pubmed_keyword_papers f
  else all_papers.

(** The articles gathered by step 5 of [run_digest]: the feeds'
    articles go through [filter_relevant] as they are fetched. *)
Definition gather_articles (relevance_filter : RelevanceFilter)
    (fl : flags) (f : fetched) : list DigestItem :=
  let all_articles := [] in
  if negb (skip_rss fl)
  then
    let relevant_articles := filter_relevant relevance_filter (rss_articles f) in
    all_articles ++ relevant_articles
  else all_articles.

(** [run_digest] from the fetched batches on: the new papers, the new
    articles and the filter that is then saved. *)
Definition run_digest (relevance_filter : RelevanceFilter)
    (dedup_filter : DeduplicationFilter) (fl : flags) (f : fetched)
  : result (list DigestItem * list DigestItem * DeduplicationFilter) :=
  let all_papers := gather_papers fl f in
  let all_articles := gather_articles relevance_filter fl f in
  let all_papers := deduplicate_within_list all_papers in
  let all_articles := deduplicate_within_list all_articles in
  let '(new_papers, dedup_filter) := filter_new utcnow dedup_filter all_papers in
  let '(new_articles, dedup_filter) := filter_new utcnow dedup_filter all_articles in
  bind (cleanup_old utcnow dedup_filter Config.ARCHIVE_DAYS) (fun dedup_filter =>
  Ok (new_papers, new_articles, dedup_filter)).

(** The order of the specification, steps 3 and 4, for the articles:
    [deduplicateWithinList] on the combined article set, then
    [filterRelevant] on its result. Written from the specification, to
    be compared with [run_digest]. *)
Definition spec_article_stage (relevance_filter : RelevanceFilter)
    (fl : flags) (f : fetched) : list DigestItem :=
  let all_articles := if negb (skip_rss fl) then rss_articles f else [] in
  filter_relevant relevance_filter (deduplicate_within_list all_articles).
End Pipeline.

End Main.

(** ** Sample data for the examples *)

Import Py Items Relevance Dedup Main.

Definition sample_time : datetime := mkdt 2024 3 1 12 30 5 0.

Definition paper_a : DigestItem :=
  mkItem "Jhana and the brain" "https://example.org/a" PAPER PUBMED
         None (Naive sample_time) (Some "10.1/x"%string) [] None None None None
         None 0 [].

Definition paper_b : DigestItem :=
  mkItem "Jhana and the brain (preprint)" "https://example.org/b" PAPER
         SEMANTIC_SCHOLAR (Some (Naive sample_time)) (Naive sample_time)
         (Some "10.1/x"%string)
         [mkAuthor "A. Author" None None] (Some "text"%string) None (Some 2024)
         None None 3 ["jhana"%string].

(** A clock that advances by one second at each reading. *)
Definition ticking_clock (n : nat) : datetime :=
  mkdt 2026 11 6 9 0 (Z.of_nat n) 0.

Definition empty_filter : DeduplicationFilter := mkFilter ∅ 0.

Definition article_c : DigestItem :=
  mkItem "Zen practice in the city" "https://example.org/c" ARTICLE RSS
         None (Naive sample_time) None [] None None None (Some "Aeon"%string)
         (Some "On sitting still."%string) 0 [].

Definition old_entry : pydict :=
  [("title"%string, PStr "Old"); ("first_seen"%string, PStr "2020-01-01T00:00:00")].

Definition old_entry_with_offset : pydict :=
  [("title"%string, PStr "Old");
   ("first_seen"%string, PStr "2020-01-01T00:00:00+00:00")].

Definition store_with_offset : DeduplicationFilter :=
  mkFilter (<["doi:10.1/x"%string := old_entry]>
            (<["doi:10.1/y"%string := old_entry_with_offset]> ∅)) 0.

Definition store_with_number : DeduplicationFilter :=
  mkFilter (<["doi:10.1/x"%string := old_entry]>
            (<["doi:10.1/z"%string :=
                 [("title"%string, PStr "Old");
                  ("first_seen"%string, PInt 1577836800)]]> ∅)) 0.

Definition store_without_offset : DeduplicationFilter :=
  mkFilter (<["doi:10.1/x"%string := old_entry]>
            (<["url:https://example.org/n"%string :=
                 [("title"%string, PStr "No timestamp")]]> ∅)) 0.

Definition default_relevance_filter : RelevanceFilter :=
  RelevanceFilter_init Config.RSS_FILTER_KEYWORDS Config.RSS_KEYWORD_THRESHOLD.

Definition article_gardening : DigestItem :=
  mkItem "Urban gardening tips" "https://example.org/post" ARTICLE RSS
         None (Naive sample_time) None [] None None None (Some "Aeon"%string) None 0 [].

Definition article_zen : DigestItem :=
  mkItem "Zen practice" "https://example.org/post" ARTICLE RSS
         None (Naive sample_time) None [] None None None (Some "Aeon"%string) None 0 [].

Definition two_posts_one_url : fetched :=
  mkFetched [] [] [] [] [] [article_gardening; article_zen].

Definition all_sources : flags := mkFlags false false false.

Definition two_keywords : list string := ["meditation"; "mindfulness"]%string.

Definition article_retreats : DigestItem :=
  mkItem "A Study of Meditation Retreats" "https://example.org/r" ARTICLE RSS
         None (Naive sample_time) None [] None None None None
         (Some "Meditation, meditation and more meditation."%string) 0 [].

Definition paper_b_after_from_dict : pydict :=
  Eval vm_compute in
    match from_dict_assignments (to_dict paper_b) with
    | Ok data' => data'
    | Raise _ => []
    end.

Definition article_tips : DigestItem :=
  mkItem "Urban Gardening Tips" "https://example.org/g" ARTICLE RSS
         None (Naive sample_time) None [] None None None None None 0 [].

Definition article_first : DigestItem :=
  mkItem "Mindfulness at work" "https://example.org/1" ARTICLE RSS
         (Some (Naive sample_time)) (Naive sample_time) None [] None None None
         None None 0 [].

Definition article_second : DigestItem :=
  mkItem "Mindfulness at school" "https://example.org/2" ARTICLE RSS
         None (Naive sample_time) None [] None None None None None 0 [].

(** An article whose date the feed parser read with
    [parsedate_to_datetime] from "Mon, 01 Jan 2024 00:00:00 +0000". *)
Definition article_feed_date : DigestItem :=
  mkItem "Mindfulness in the news" "https://example.org/3" ARTICLE RSS
         (Some (Aware (mkdt 2024 1 1 0 0 0 0) 0)) (Naive sample_time)
         None [] None None None None None 0 [].

(** An article dated with a UTC offset of one microsecond, and the same
    article dated in UTC. *)
Definition article_small_offset : DigestItem :=
  mkItem "Mindfulness abroad" "https://example.org/4" ARTICLE RSS
         (Some (Aware (mkdt 2024 1 1 0 0 0 0) 1)) (Naive sample_time)
         None [] None None None None None 0 [].

Definition article_utc : DigestItem :=
  mkItem "Mindfulness abroad" "https://example.org/4" ARTICLE RSS
         (Some (Aware (mkdt 2024 1 1 0 0 0 0) 0)) (Naive sample_time)
         None [] None None None None None 0 [].

(** The configuration of the failing input of C5: one keyword, held
    twice. *)
Definition zen_twice : list string := ["zen"; "zen"]%string.

Definition zen_in_two_cases : list string := ["Zen"; "zen"]%string.

(** An article with text in all three fields. *)
Definition article_three_fields : DigestItem :=
  mkItem "Zen Practice" "https://example.org/t" ARTICLE RSS
         None (Naive sample_time) None [] (Some "The Breath"%string) None None None
         (Some "On SITTING still."%string) 0 [].

Definition seven_keywords : list string :=
  ["ZEN"; "Sitting Still"; "breath"; "practice on"; "still the"; "reath";
   "city"]%string.

(** The name Zenon with its accented o, the letter 243. *)
Definition zenon : string := "Zen" +:+ String "243" "n".

(** * Properties *)


(** ** Item identity *)

Lemma nonempty_Some (d : string) :
  d ≠ EmptyString → nonempty (Some d) = Some d.
Proof. by destruct d. Qed.

(** C4: the identity of an item is ["doi:" + doi] when [doi] is a
    non-empty string and ["url:" + url] otherwise; it therefore depends
    on no field other than [doi] and [url], and two items with the same
    non-empty [doi] have the same identity whatever their [url]s. *)
Theorem get_unique_id_identity (item : DigestItem) :
  (∀ d, doi item = Some d → d ≠ EmptyString →
        get_unique_id item = "doi:" +:+ d) ∧
  (doi item = None ∨ doi item = Some EmptyString →
        get_unique_id item = "url:" +:+ url item) ∧
  (∀ other, doi other = doi item → url other = url item →
        get_unique_id other = get_unique_id item) ∧
  (∀ other d, d ≠ EmptyString → doi item = Some d → doi other = Some d →
        get_unique_id other = get_unique_id item).
Proof.
  unfold get_unique_id. repeat split.
  - intros d -> Hd. by rewrite nonempty_Some.
  - by intros [-> | ->].
  - by intros other -> ->.
  - intros other d Hd -> ->. by rewrite nonempty_Some.
Qed.

Lemma get_unique_id_identity_witness :
  get_unique_id paper_a = "doi:10.1/x"%string ∧
  get_unique_id paper_b = get_unique_id paper_a.
Proof.
  destruct (get_unique_id_identity paper_a) as (Hdoi & _ & _ & Hsame).
  split.
  - apply (Hdoi "10.1/x"%string); [reflexivity | discriminate].
  - apply (Hsame paper_b "10.1/x"%string); [discriminate | reflexivity | reflexivity].
Defined.

(** ** The deduplication store *)

Section DedupFacts.
Variable utcnow : nat → datetime.

Lemma is_seen_true (self : DeduplicationFilter) item :
  is_seen self item = true ↔ is_Some (seen_items self !! get_unique_id item).
Proof. unfold is_seen. by rewrite bool_decide_eq_true. Qed.

Lemma is_seen_false (self : DeduplicationFilter) item :
  is_seen self item = false ↔ seen_items self !! get_unique_id item = None.
Proof.
  unfold is_seen. rewrite bool_decide_eq_false.
  by rewrite eq_None_not_Some.
Qed.

Lemma is_seen_mark_seen_same self x y :
  get_unique_id y = get_unique_id x →
  is_seen (mark_seen utcnow self x) y = true.
Proof.
  intros E. apply is_seen_true. simpl. rewrite E.
  rewrite lookup_insert_eq. by eexists.
Qed.

Lemma is_seen_mark_seen_other self x y :
  get_unique_id y ≠ get_unique_id x →
  is_seen (mark_seen utcnow self x) y = is_seen self y.
Proof.
  intros E. unfold is_seen. simpl. by rewrite lookup_insert_ne.
Qed.

Lemma is_seen_mark_seen_mono self x y :
  is_seen self y = true → is_seen (mark_seen utcnow self x) y = true.
Proof.
  intros H.
  destruct (decide (get_unique_id y = get_unique_id x)) as [E | E].
  - by apply is_seen_mark_seen_same.
  - by rewrite is_seen_mark_seen_other.
Qed.

(** The loop of [filter_new], one item at a time. *)
Lemma filter_new_acc items acc self :
  fold_left
    (fun '(new_items, self) item =>
       if negb (is_seen self item)
       then (new_items ++ [item], mark_seen utcnow self item)
       else (new_items, self))
    items (acc, self)
  = (acc ++ (filter_new utcnow self items).1,
     (filter_new utcnow self items).2).
Proof.
  revert acc self. induction items as [| x l IH]; intros acc self.
  - simpl. by rewrite app_nil_r.
  - unfold filter_new. simpl. destruct (is_seen self x); simpl.
    + apply IH.
    + rewrite (IH [x]). rewrite IH. simpl. by rewrite <- app_assoc.
Qed.

Lemma filter_new_nil self : filter_new utcnow self [] = ([], self).
Proof. reflexivity. Qed.

Lemma filter_new_cons self x l :
  filter_new utcnow self (x :: l) =
  if is_seen self x then filter_new utcnow self l
  else (x :: (filter_new utcnow (mark_seen utcnow self x) l).1,
        (filter_new utcnow (mark_seen utcnow self x) l).2).
Proof.
  unfold filter_new at 1. simpl. destruct (is_seen self x); simpl.
  - reflexivity.
  - by rewrite filter_new_acc.
Qed.

Lemma filter_new_sublist self items :
  sublist (filter_new utcnow self items).1 items.
Proof.
  revert self. induction items as [| x l IH]; intros self.
  - constructor.
  - rewrite filter_new_cons. destruct (is_seen self x); simpl.
    + by apply sublist_cons.
    + by apply sublist_skip.
Qed.

Lemma filter_new_unseen self items x :
  x ∈ (filter_new utcnow self items).1 → is_seen self x = false.
Proof.
  revert self. induction items as [| y l IH]; intros self.
  - simpl. by intros ?%elem_of_nil.
  - rewrite filter_new_cons. destruct (is_seen self y) eqn:Hy; simpl.
    + apply IH.
    + intros [-> | Hx]%elem_of_cons; [done |].
      apply IH in Hx. destruct (is_seen self x) eqn:Hs; [| done].
      by rewrite is_seen_mark_seen_mono in Hx.
Qed.

Lemma filter_new_NoDup self items :
  NoDup (get_unique_id <$> (filter_new utcnow self items).1).
Proof.
  revert self. induction items as [| y l IH]; intros self.
  - constructor.
  - rewrite filter_new_cons. destruct (is_seen self y) eqn:Hy; simpl.
    + apply IH.
    + constructor; [| apply IH].
      intros (z & Ez & Hz)%list_elem_of_fmap.
      apply filter_new_unseen in Hz.
      by rewrite is_seen_mark_seen_same in Hz.
Qed.

Lemma filter_new_keeps_seen self items x :
  is_seen self x = true → is_seen (filter_new utcnow self items).2 x = true.
Proof.
  revert self. induction items as [| y l IH]; intros self Hx.
  - done.
  - rewrite filter_new_cons. destruct (is_seen self y); simpl.
    + by apply IH.
    + by apply IH, is_seen_mark_seen_mono.
Qed.

Lemma filter_new_all_seen self items x :
  x ∈ items → is_seen (filter_new utcnow self items).2 x = true.
Proof.
  revert self. induction items as [| y l IH]; intros self.
  - by intros ?%elem_of_nil.
  - rewrite filter_new_cons.
    intros [-> | Hx]%elem_of_cons.
    + destruct (is_seen self y) eqn:Hy; simpl.
      * by apply filter_new_keeps_seen.
      * by apply filter_new_keeps_seen, is_seen_mark_seen_same.
    + destruct (is_seen self y); simpl; by apply IH.
Qed.

Lemma filter_new_seen self items :
  (∀ x, x ∈ items → is_seen self x = true) →
  filter_new utcnow self items = ([], self).
Proof.
  induction items as [| y l IH]; intros H.
  - done.
  - rewrite filter_new_cons. rewrite (H y) by apply list_elem_of_here.
    apply IH. intros x Hx. apply H. by apply list_elem_of_further.
Qed.

Lemma filter_new_fresh self items :
  NoDup (get_unique_id <$> items) →
  (∀ x, x ∈ items → is_seen self x = false) →
  (filter_new utcnow self items).1 = items.
Proof.
  revert self. induction items as [| y l IH]; intros self Hnd H.
  - done.
  - rewrite filter_new_cons. rewrite (H y) by apply list_elem_of_here.
    simpl. f_equal. apply NoDup_cons in Hnd as [Hy Hnd].
    apply IH; [done |]. intros x Hx.
    rewrite is_seen_mark_seen_other.
    + apply H. by apply list_elem_of_further.
    + intros E. apply Hy. rewrite <- E. by apply list_elem_of_fmap_2.
Qed.

(** Every identity of the batch that was not seen before is in the
    result. *)
Lemma filter_new_covers self items x :
  x ∈ items → is_seen self x = false →
  get_unique_id x ∈ get_unique_id <$> (filter_new utcnow self items).1.
Proof.
  revert self. induction items as [| y l IH]; intros self.
  - by intros ?%elem_of_nil.
  - rewrite filter_new_cons. intros Hx Hs.
    destruct (is_seen self y) eqn:Hy; simpl.
    + apply elem_of_cons in Hx as [-> | Hx]; [congruence |]. by apply IH.
    + destruct (decide (get_unique_id x = get_unique_id y)) as [E | E].
      * rewrite E. apply list_elem_of_here.
      * apply list_elem_of_further.
        apply elem_of_cons in Hx as [-> | Hx]; [done |].
        apply IH; [done |]. by rewrite is_seen_mark_seen_other.
Qed.
(** [filter_new] leaves the record of an identity that was seen
    before the call as it was. *)
Lemma filter_new_frame (self : DeduplicationFilter) items u :
  is_Some (seen_items self !! u) →
  seen_items (filter_new utcnow self items).2 !! u = seen_items self !! u.
Proof.
  revert self. induction items as [| x l IH]; intros self Hu; [done |].
  rewrite filter_new_cons. destruct (is_seen self x) eqn:Hx; simpl.
  - by apply IH.
  - apply is_seen_false in Hx.
    assert (get_unique_id x ≠ u) as Hne.
    { intros <-. rewrite Hx in Hu. by destruct Hu. }
    rewrite IH; simpl; by rewrite lookup_insert_ne.
Qed.

(** The record of the [i]-th new item is written at the [i]-th reading
    of the clock from the call on. *)
Lemma filter_new_records (self : DeduplicationFilter) items i x :
  (filter_new utcnow self items).1 !! i = Some x →
  seen_items (filter_new utcnow self items).2 !! get_unique_id x
  = Some [("title"%string, PStr (title x));
          ("first_seen"%string,
           PStr (isoformat (utcnow (clock self + i)%nat)))].
Proof.
  revert self i. induction items as [| y l IH]; intros self i; [done |].
  rewrite filter_new_cons. destruct (is_seen self y) eqn:Hy; simpl.
  - apply IH.
  - destruct i as [| j]; simpl.
    + intros [= ->]. rewrite filter_new_frame; simpl.
      * rewrite lookup_insert_eq. by rewrite Nat.add_0_r.
      * rewrite lookup_insert_eq. by eexists.
    + intros Hj. rewrite (IH _ _ Hj). simpl.
      by replace (S (clock self + j)) with (clock self + S j)%nat by lia.
Qed.

(** [mark_seen] is called, and the clock read, once for each new item. *)
Lemma filter_new_clock (self : DeduplicationFilter) items :
  clock (filter_new utcnow self items).2
  = (clock self + length (filter_new utcnow self items).1)%nat.
Proof.
  revert self. induction items as [| x l IH]; intros self.
  - simpl. lia.
  - rewrite filter_new_cons. destruct (is_seen self x); simpl.
    + apply IH.
    + rewrite IH. simpl. lia.
Qed.
End DedupFacts.

(** C1, as stated, fails: a second [mark_seen] for an identity that is
    already present replaces the stored ["first_seen"] with the time of
    the second call. *)
Lemma mark_seen_again_resets_first_seen :
  let first := mark_seen ticking_clock empty_filter paper_a in
  let second := mark_seen ticking_clock first paper_a in
  is_seen first paper_a = true ∧
  first_seen_of first paper_a = Some (PStr "2026-11-06T09:00:00") ∧
  first_seen_of second paper_a = Some (PStr "2026-11-06T09:00:01") ∧
  first_seen_of second paper_a ≠ first_seen_of first paper_a.
Proof.
  vm_compute. repeat split; discriminate.
Qed.

(** C1, amended: [mark_seen] stores the record of the title and the
    current time under the identity of the item whether or not that
    identity is present, and touches no other record, so that a second
    call leaves the time of the second call. The timestamp of the first
    call is kept on the path through [filter_new]: whatever the batch,
    the record of an identity that was seen before the call is the same
    after it, title and ["first_seen"]; a batch of seen items leaves the
    filter as it was; [mark_seen] runs for the new items only, each of
    which was not seen and gets its record at the reading of the clock
    that is its turn, the clock being read once for each new item. *)
Theorem mark_seen_overwrites (utcnow : nat → datetime)
    (self : DeduplicationFilter) (item : DigestItem) :
  let record := fun (t : string) (n : nat) =>
    [("title"%string, PStr t);
     ("first_seen"%string, PStr (isoformat (utcnow n)))] in
  seen_items (mark_seen utcnow self item) !! get_unique_id item
    = Some (record (title item) (clock self)) ∧
  (∀ u, u ≠ get_unique_id item →
        seen_items (mark_seen utcnow self item) !! u = seen_items self !! u) ∧
  first_seen_of (mark_seen utcnow self item) item
    = Some (PStr (isoformat (utcnow (clock self)))) ∧
  first_seen_of (mark_seen utcnow (mark_seen utcnow self item) item) item
    = Some (PStr (isoformat (utcnow (S (clock self))))) ∧
  (∀ items x, is_seen self x = true →
     seen_items (filter_new utcnow self items).2 !! get_unique_id x
       = seen_items self !! get_unique_id x
     ∧ first_seen_of (filter_new utcnow self items).2 x
       = first_seen_of self x) ∧
  (∀ items, (∀ x, x ∈ items → is_seen self x = true) →
     filter_new utcnow self items = ([], self)) ∧
  (∀ items i x, (filter_new utcnow self items).1 !! i = Some x →
     is_seen self x = false
     ∧ seen_items (filter_new utcnow self items).2 !! get_unique_id x
       = Some (record (title x) (clock self + i)%nat)) ∧
  (∀ items, clock (filter_new utcnow self items).2
            = (clock self + length (filter_new utcnow self items).1)%nat).
Proof.
  intros record. subst record.
  split; [simpl; by rewrite lookup_insert_eq |].
  split; [intros u Hu; simpl; by rewrite lookup_insert_ne |].
  split; [unfold first_seen_of; simpl; by rewrite lookup_insert_eq |].
  split; [unfold first_seen_of; simpl; by rewrite lookup_insert_eq |].
  split.
  { intros items x Hx%is_seen_true.
    pose proof (filter_new_frame utcnow self items _ Hx) as E.
    split; [exact E |]. unfold first_seen_of. by rewrite E. }
  split; [intros items; apply filter_new_seen |].
  split; [| intros items; apply filter_new_clock].
  intros items i x Hi. split.
  - apply (filter_new_unseen utcnow self items).
    by apply list_elem_of_lookup_2 in Hi.
  - by apply filter_new_records.
Qed.

Lemma mark_seen_overwrites_witness :
  let seen := mark_seen ticking_clock empty_filter paper_a in
  let after := filter_new ticking_clock seen [article_c; paper_a; paper_b] in
  is_seen seen paper_a = true
  ∧ after.1 = [article_c]
  ∧ first_seen_of seen paper_a = Some (PStr "2026-11-06T09:00:00")
  ∧ first_seen_of after.2 paper_a = Some (PStr "2026-11-06T09:00:00")
  ∧ seen_items after.2 !! get_unique_id paper_a
    = Some [("title"%string, PStr "Jhana and the brain");
            ("first_seen"%string, PStr "2026-11-06T09:00:00")]
  ∧ seen_items after.2 !! get_unique_id article_c
    = Some [("title"%string, PStr "Zen practice in the city");
            ("first_seen"%string, PStr "2026-11-06T09:00:01")].
Proof.
  intros seen after.
  destruct (mark_seen_overwrites ticking_clock seen paper_a)
    as (_ & _ & _ & _ & Hkept & _ & Hnew & _).
  assert (is_seen seen paper_a = true) as Hseen by reflexivity.
  destruct (Hkept [article_c; paper_a; paper_b] paper_a Hseen) as [Hrec Hfirst].
  destruct (Hnew [article_c; paper_a; paper_b] 0%nat article_c eq_refl)
    as [_ Hc].
  split; [exact Hseen |].
  split; [reflexivity |].
  split; [reflexivity |].
  split; [unfold after; rewrite Hfirst; reflexivity |].
  split; [unfold after; rewrite Hrec; reflexivity |].
  unfold after. rewrite Hc. reflexivity.
Defined.

(** C2: [filter_new] goes through the items in input order, keeps an
    item exactly when its identity is not seen at that moment and marks
    it seen at once. Hence the result is a subsequence of the input with
    pairwise distinct identities, none of them seen before, covering
    every identity of the batch that was not seen before; afterwards the
    whole batch is seen, so that an immediately repeated call returns the
    empty list; and a batch with distinct identities, none seen before,
    is returned whole. *)
Theorem filter_new_spec (utcnow : nat → datetime)
    (self : DeduplicationFilter) (items : list DigestItem) :
  let new_items := (filter_new utcnow self items).1 in
  let self' := (filter_new utcnow self items).2 in
  (∀ s, filter_new utcnow s [] = ([], s)) ∧
  (∀ s x l,
     filter_new utcnow s (x :: l) =
     if is_seen s x then filter_new utcnow s l
     else (x :: (filter_new utcnow (mark_seen utcnow s x) l).1,
           (filter_new utcnow (mark_seen utcnow s x) l).2)) ∧
  sublist new_items items ∧
  NoDup (get_unique_id <$> new_items) ∧
  (∀ x, x ∈ new_items → is_seen self x = false) ∧
  (∀ x, x ∈ items → is_seen self x = false →
        get_unique_id x ∈ get_unique_id <$> new_items) ∧
  (∀ x, x ∈ items → is_seen self' x = true) ∧
  filter_new utcnow self' items = ([], self') ∧
  (NoDup (get_unique_id <$> items) →
   (∀ x, x ∈ items → is_seen self x = false) →
   new_items = items).
Proof.
  intros new_items self'. subst new_items self'.
  split; [apply filter_new_nil |].
  split; [apply filter_new_cons |].
  split; [apply filter_new_sublist |].
  split; [apply filter_new_NoDup |].
  split; [apply filter_new_unseen |].
  split; [apply filter_new_covers |].
  split; [apply filter_new_all_seen |].
  split; [apply filter_new_seen, filter_new_all_seen |].
  apply filter_new_fresh.
Qed.

Lemma filter_new_spec_witness :
  (filter_new ticking_clock empty_filter [paper_a; article_c]).1
  = [paper_a; article_c].
Proof.
  apply (filter_new_spec ticking_clock empty_filter [paper_a; article_c]).
  - apply (bool_decide_unpack _). vm_compute. reflexivity.
  - intros x Hx. apply elem_of_cons in Hx as [-> | Hx]; [reflexivity |].
    apply list_elem_of_singleton in Hx as ->. reflexivity.
Defined.

(** ** Expiry of old entries *)

Section CleanupFacts.
Variable utcnow : nat → datetime.

Lemma lookup_fold_delete (l : list string) (m : gmap string pydict) k :
  fold_left (fun m uid => delete uid m) l m !! k
  = if decide (k ∈ l) then None else m !! k.
Proof.
  revert m. induction l as [| a l IH]; intros m; simpl.
  - destruct (decide (k ∈ [])) as [H | H]; [| done].
    by apply elem_of_nil in H.
  - rewrite IH.
    destruct (decide (k ∈ l)) as [Hl | Hl];
      destruct (decide (k ∈ a :: l)) as [Hal | Hal]; try done.
    + exfalso. apply Hal. by apply list_elem_of_further.
    + apply elem_of_cons in Hal as [-> | Hal]; [| done].
      apply lookup_delete_eq.
    + apply lookup_delete_ne. intros ->. apply Hal, list_elem_of_here.
Qed.

(** The only exception that leaves [expired] is [TypeError]. *)
Lemma expired_raises cutoff data e :
  expired cutoff data = Raise e → e = TypeError.
Proof.
  unfold expired.
  destruct (truthy _); [| discriminate].
  destruct (dict_get_default _ _ _); try congruence.
  destruct (fromisoformat s); congruence.
Qed.

Lemma collect_expired_ok cutoff (entries : list (string * pydict)) :
  (∀ uid data, (uid, data) ∈ entries → ∃ b, expired cutoff data = Ok b) →
  ∃ to_remove,
    collect_expired cutoff entries = Ok to_remove ∧
    ∀ uid, uid ∈ to_remove ↔
           ∃ data, (uid, data) ∈ entries ∧ expired cutoff data = Ok true.
Proof.
  induction entries as [| [uid data] rest IH]; intros H.
  - exists []. split; [done |]. intros uid. split.
    + by intros ?%elem_of_nil.
    + by intros (? & ?%elem_of_nil & _).
  - destruct IH as (l & El & Hl).
    { intros u d Hu. apply (H u d). by apply list_elem_of_further. }
    destruct (H uid data) as [b Eb]; [apply list_elem_of_here |].
    exists (if b then uid :: l else l). simpl. rewrite Eb, El. simpl.
    split; [done |]. intros u. split.
    + intros Hu.
      assert (u = uid ∧ b = true ∨ u ∈ l) as [[-> ->] | Hin].
      { destruct b; [| by right].
        apply elem_of_cons in Hu as [-> | Hu]; [by left | by right]. }
      * exists data. split; [apply list_elem_of_here | done].
      * apply Hl in Hin as (d & Hd & Ed). exists d.
        split; [by apply list_elem_of_further | done].
    + intros (d & [E | Hd]%elem_of_cons & Ed).
      * injection E as -> ->. rewrite Eb in Ed. injection Ed as ->.
        apply list_elem_of_here.
      * assert (u ∈ l) by (apply Hl; eauto).
        destruct b; [by apply list_elem_of_further | done].
Qed.

Lemma collect_expired_raises cutoff (entries : list (string * pydict))
    uid data e :
  (uid, data) ∈ entries → expired cutoff data = Raise e →
  collect_expired cutoff entries = Raise TypeError.
Proof.
  induction entries as [| [u d] rest IH].
  - by intros ?%elem_of_nil.
  - intros [E | Hin]%elem_of_cons Hr; simpl.
    + injection E as <- <-. rewrite Hr. simpl.
      by rewrite (expired_raises _ _ _ Hr).
    + destruct (expired cutoff d) as [b | e'] eqn:Ed; simpl.
      * by rewrite (IH Hin Hr).
      * by rewrite (expired_raises _ _ _ Ed).
Qed.

(** On a store all of whose timestamps are missing, unparsable or
    naive, [cleanup_old] removes the entries whose timestamp is before
    the cutoff and no other. *)
Lemma cleanup_old_removes_expired self days cutoff :
  sub_days (utcnow (clock self)) days = Ok cutoff →
  (∀ uid data, seen_items self !! uid = Some data →
               ∃ b, expired cutoff data = Ok b) →
  ∃ self',
    cleanup_old utcnow self days = Ok self' ∧
    ∀ uid, seen_items self' !! uid =
           match seen_items self !! uid with
           | Some data =>
               match expired cutoff data with
               | Ok true => None
               | _ => Some data
               end
           | None => None
           end.
Proof.
  intros Ec Hall.
  destruct (collect_expired_ok cutoff (map_to_list (seen_items self)))
    as (l & El & Hl).
  { intros uid data Hin. apply (Hall uid data).
    by apply elem_of_map_to_list. }
  unfold cleanup_old. rewrite Ec. simpl. rewrite El. simpl.
  eexists. split; [reflexivity |]. intros uid. simpl.
  rewrite lookup_fold_delete.
  destruct (seen_items self !! uid) as [data |] eqn:Eu.
  - destruct (decide (uid ∈ l)) as [Hin | Hnin].
    + apply Hl in Hin as (d & Hd & Ed).
      apply elem_of_map_to_list in Hd.
      assert (d = data) as -> by congruence. by rewrite Ed.
    + destruct (expired cutoff data) as [[|] | e] eqn:Ed; try done.
      exfalso. apply Hnin, Hl. exists data.
      split; [by apply elem_of_map_to_list | done].
  - by destruct (decide (uid ∈ l)).
Qed.

(** An entry whose timestamp is missing, empty or unparsable is never
    put on [to_remove]. *)
Lemma expired_fail_open cutoff data :
  (dict_get "first_seen" data = None
   ∨ dict_get "first_seen" data = Some PNone
   ∨ dict_get "first_seen" data = Some (PStr EmptyString)
   ∨ ∃ s, dict_get "first_seen" data = Some (PStr s)
          ∧ fromisoformat s = IsoValueError) →
  expired cutoff data = Ok false.
Proof.
  unfold expired, dict_get_default.
  intros [-> | [-> | [-> | (s & -> & E)]]]; try done.
  simpl. rewrite E. by destruct (negb _).
Qed.

(** A single entry that makes the loop raise makes the whole call
    raise: nothing is removed. *)
Lemma cleanup_old_raises self days cutoff uid data e :
  sub_days (utcnow (clock self)) days = Ok cutoff →
  seen_items self !! uid = Some data →
  expired cutoff data = Raise e →
  cleanup_old utcnow self days = Raise TypeError.
Proof.
  intros Ec Hu Hr. unfold cleanup_old. rewrite Ec. simpl.
  rewrite (collect_expired_raises cutoff _ uid data e); [done | | done].
  by apply elem_of_map_to_list.
Qed.
End CleanupFacts.

(** C3 at a store with one entry whose ["first_seen"] carries a UTC
    offset: [fromisoformat] accepts the string, the comparison of the
    offset-aware result with the naive cutoff raises [TypeError], which
    [except ValueError] lets through, and nothing is removed, not even
    the plain entry of 2020 next to it. A ["first_seen"] that is a
    number does the same, [fromisoformat] raising the [TypeError].
    Without such an entry the same call removes the entry of 2020 and
    keeps the one without timestamp. *)
Theorem cleanup_old_offset_timestamp_raises :
  fromisoformat "2020-01-01T00:00:00+00:00"
    = IsoAware (mkdt 2020 1 1 0 0 0 0) 0 ∧
  cleanup_old ticking_clock store_with_offset 90 = Raise TypeError ∧
  cleanup_old ticking_clock store_with_number 90 = Raise TypeError ∧
  (∃ self', cleanup_old ticking_clock store_without_offset 90 = Ok self' ∧
            seen_items self' !! "doi:10.1/x"%string = None ∧
            seen_items self' !! "url:https://example.org/n"%string
              = Some [("title"%string, PStr "No timestamp")]).
Proof.
  split; [by vm_compute |].
  split; [by vm_compute |].
  split; [by vm_compute |].
  eexists. split; [by vm_compute |]. split; by vm_compute.
Qed.

(** ** Loading the store *)

(** A missing file, and a file on which [open] or [json.load] raises
    [OSError] or [JSONDecodeError], leave an empty mapping; the failure,
    if any, is logged. *)
Lemma load_tolerates_missing_and_undecodable :
  DeduplicationFilter_init FileAbsent = Ok (PDict [], []) ∧
  ∀ e, e = OSError ∨ e = JSONDecodeError →
       DeduplicationFilter_init (FilePresent (ReadRaises e))
       = Ok (PDict [], [ErrorLoadFailed e]).
Proof.
  split; [done |]. by intros e [-> | ->].
Qed.

(** A well-formed file is loaded as it is. *)
Lemma load_well_formed (items : pydict) :
  DeduplicationFilter_init
    (FilePresent (ReadJson (PDict [("items"%string, PDict items)])))
  = Ok (PDict items, [InfoLoaded (length items)]).
Proof. reflexivity. Qed.

(** C8 at a file that holds JSON other than the expected mapping: the
    array [[]] has no [get] and the constructor raises [AttributeError];
    [{"items": null}] makes [len] raise [TypeError]; bytes that are not
    text make [json.load] raise [UnicodeDecodeError]. None of these is
    among the exceptions that [_load] catches. *)
Theorem load_raises_on_json_that_is_no_mapping :
  DeduplicationFilter_init (FilePresent (ReadJson (PList [])))
    = Raise AttributeError ∧
  DeduplicationFilter_init
    (FilePresent (ReadJson (PDict [("items"%string, PNone)])))
    = Raise TypeError ∧
  DeduplicationFilter_init (FilePresent (ReadRaises UnicodeDecodeError))
    = Raise UnicodeDecodeError.
Proof. by repeat split. Qed.

(** ** The pipeline *)

Section PipelineFacts.
Variable utcnow : nat → datetime.

Lemma deduplicate_acc items acc (seen_ids : gset string) :
  ∃ r,
    (fold_left
       (fun '(unique_items, seen_ids) item =>
          let uid := get_unique_id item in
          if bool_decide (uid ∈ (seen_ids : gset string))
          then (unique_items, seen_ids)
          else (unique_items ++ [item], {[uid]} ∪ seen_ids))
       items (acc, seen_ids)).1 = acc ++ r
    ∧ sublist r items.
Proof.
  revert acc seen_ids. induction items as [| x l IH]; intros acc seen_ids.
  - exists []. simpl. by rewrite app_nil_r.
  - simpl. destruct (bool_decide _).
    + destruct (IH acc seen_ids) as (r & E & Hs).
      exists r. split; [done | by apply sublist_cons].
    + destruct (IH (acc ++ [x]) ({[get_unique_id x]} ∪ seen_ids))
        as (r & E & Hs).
      exists (x :: r). split; [| by apply sublist_skip].
      etrans; [apply E |]. by rewrite <- app_assoc.
Qed.

Lemma deduplicate_within_list_sublist items :
  sublist (deduplicate_within_list items) items.
Proof.
  destruct (deduplicate_acc items [] ∅) as (r & E & Hs).
  by replace (deduplicate_within_list items) with r
    by (symmetry; exact E).
Qed.

(** C7, amended: [run_digest] applies [filter_relevant] to the fetched
    articles first and runs [deduplicate_within_list] on what it kept;
    the papers go from the fetchers to [deduplicate_within_list] and
    [filter_new] as they are and never through [filter_relevant]. *)
Theorem run_digest_filters_then_deduplicates
    (relevance_filter : RelevanceFilter) (dedup_filter : DeduplicationFilter)
    (fl : flags) (f : fetched) :
  let papers := deduplicate_within_list (gather_papers fl f) in
  let articles :=
    deduplicate_within_list
      (if skip_rss fl then []
       else filter_relevant relevance_filter (rss_articles f)) in
  let after_papers := filter_new utcnow dedup_filter papers in
  let after_articles := filter_new utcnow after_papers.2 articles in
  run_digest utcnow relevance_filter dedup_filter fl f
  = bind (cleanup_old utcnow after_articles.2 Config.ARCHIVE_DAYS)
      (fun dedup_filter =>
         Ok (after_papers.1, after_articles.1, dedup_filter))
  ∧ sublist after_papers.1 (gather_papers fl f).
Proof.
  intros papers articles after_papers after_articles. split.
  - unfold run_digest, gather_articles.
    subst after_articles after_papers articles papers.
    destruct (skip_rss fl); simpl;
      destruct (filter_new utcnow dedup_filter _) as [np d1]; simpl;
      [done |].
    by destruct (filter_new utcnow d1 _) as [na d2].
  - subst after_papers papers.
    etrans; [apply filter_new_sublist |].
    apply deduplicate_within_list_sublist.
Qed.
End PipelineFacts.

(** C7, as stated, fails: of two articles with one URL, the first
    irrelevant and the second relevant, [run_digest] reports the second
    as new, which it can only do by filtering for relevance before
    removing duplicates; in the order of the specification the first
    occurrence wins, is then dropped as irrelevant, and nothing is
    left. *)
Lemma run_digest_filters_before_deduplicating :
  (∃ dedup_filter,
     run_digest ticking_clock default_relevance_filter empty_filter
                all_sources two_posts_one_url
     = Ok ([], [set_relevance article_zen 1 ["zen"%string]], dedup_filter)) ∧
  spec_article_stage default_relevance_filter all_sources two_posts_one_url = [].
Proof.
  split; [eexists |]; by vm_compute.
Qed.

(** ** Relevance scoring *)

Section RelevanceFacts.

Lemma last_or_cons prev c l : last_or prev (c :: l) = last_or (Some c) l.
Proof.
  unfold last_or. destruct l as [| c' l]; [done |].
  rewrite last_cons. by destruct (last (c' :: l)).
Qed.

Lemma lower_char_eqb a b :
  Ascii.eqb (lower_char a) (lower_char b) = true ↔ lower_char a = lower_char b.
Proof. apply Ascii.eqb_eq. Qed.

Lemma match_literal_spec kw text prev lst rest :
  match_literal kw text prev = Some (lst, rest) ↔
  ∃ mid, text = mid ++ rest
         ∧ map lower_char mid = map lower_char kw
         ∧ lst = last_or prev mid.
Proof.
  revert text prev. induction kw as [| p kw IH]; intros text prev; simpl.
  - split.
    + intros [= <- <-]. by exists [].
    + intros (mid & -> & Em & ->). by destruct mid.
  - destruct text as [| c text].
    + split; [done |]. intros (mid & E & Em & _).
      destruct mid; [done | by destruct rest].
    + destruct (Ascii.eqb (lower_char p) (lower_char c)) eqn:Epc.
      * apply lower_char_eqb in Epc. rewrite IH. split.
        -- intros (mid & -> & Em & ->). exists (c :: mid).
           rewrite last_or_cons. simpl. by rewrite Em, Epc.
        -- intros (mid & E & Em & ->). destruct mid as [| c' mid]; [done |].
           simpl in E, Em. injection E as <- ->. injection Em as _ Em.
           exists mid. by rewrite last_or_cons.
      * split; [done |]. intros (mid & E & Em & _).
        destruct mid as [| c' mid]; [done |].
        simpl in E, Em. injection E as <- _. injection Em as Ec _.
        apply lower_char_eqb in Ec.
        rewrite Ascii.eqb_sym in Epc. congruence.
Qed.

Lemma search_from_spec kw text prev :
  search_from prev kw text = true ↔
  ∃ pre mid post,
    text = pre ++ mid ++ post
    ∧ map lower_char mid = map lower_char kw
    ∧ boundary (last_or prev pre) (head (mid ++ post)) = true
    ∧ boundary (last_or prev (pre ++ mid)) (head post) = true.
Proof.
  split.
  - revert prev. induction text as [| c text IH]; intros prev H.
    + simpl in H. rewrite orb_false_r in H. unfold match_here in H.
      apply andb_true_iff in H as [Hb H].
      destruct (match_literal kw [] prev) as [[lst rest] |] eqn:Em; [| done].
      apply match_literal_spec in Em as (mid & E & Em & ->).
      exists [], mid, rest. by rewrite <- E.
    + simpl in H. apply orb_true_iff in H as [H | H].
      * unfold match_here in H. apply andb_true_iff in H as [Hb H].
        destruct (match_literal kw (c :: text) prev)
          as [[lst rest] |] eqn:Em; [| done].
        apply match_literal_spec in Em as (mid & E & Em & ->).
        exists [], mid, rest. by rewrite <- E.
      * apply IH in H as (pre & mid & post & -> & Em & Hb1 & Hb2).
        exists (c :: pre), mid, post. simpl.
        by rewrite !last_or_cons.
  - intros (pre & mid & post & -> & Em & Hb1 & Hb2).
    revert prev Hb1 Hb2. induction pre as [| c pre IH]; intros prev Hb1 Hb2.
    + change ([] ++ mid ++ post) with (mid ++ post).
      change (last_or prev []) with prev in Hb1.
      change ([] ++ mid) with mid in Hb2.
      assert (match_here prev kw (mid ++ post) = true) as Hm.
      { unfold match_here. rewrite Hb1.
        assert (match_literal kw (mid ++ post) prev
                = Some (last_or prev mid, post)) as ->.
        { apply match_literal_spec. by exists mid. }
        exact Hb2. }
      destruct (mid ++ post); simpl; by rewrite Hm.
    + rewrite <- !app_comm_cons, !last_or_cons in *.
      simpl. rewrite (IH (Some c)); [apply orb_true_r | done | done].
Qed.

(** [pattern.search] finds the keyword exactly where the text has it,
    up to the case of letters, between two word boundaries. *)
Lemma pattern_search_spec kw t :
  pattern_search (compile kw) t = true ↔
  ∃ pre mid post,
    chars t = pre ++ mid ++ post
    ∧ map lower_char mid = map lower_char (chars kw)
    ∧ boundary (last pre) (head (mid ++ post)) = true
    ∧ boundary (last (pre ++ mid)) (head post) = true.
Proof.
  unfold pattern_search. simpl. rewrite search_from_spec.
  assert (∀ l, last_or None l = last l) as E.
  { intros l. unfold last_or. by destruct (last l). }
  by setoid_rewrite E.
Qed.

(** The loop of [calculate_relevance]. *)
Lemma matched_acc (kws : list string) text acc :
  fold_left
    (fun matched '(keyword, pattern) =>
       if pattern_search pattern text then matched ++ [keyword]
       else matched)
    (combine (map lower kws) (map compile kws)) acc
  = acc ++ map lower
             (List.filter (fun kw => pattern_search (compile kw) text) kws).
Proof.
  revert acc. induction kws as [| kw kws IH]; intros acc; simpl.
  - by rewrite app_nil_r.
  - rewrite IH. destruct (pattern_search (compile kw) text); simpl.
    + by rewrite <- app_assoc.
    + done.
Qed.

Lemma text_of_parts item :
  text_of item
  = lower (join " " (omap nonempty
                       [Some (title item); excerpt item; abstract item])).
Proof.
  unfold text_of, present.
  destruct (title item) as [| ? ?];
    destruct (excerpt item) as [[| ? ?] |];
    destruct (abstract item) as [[| ? ?] |]; reflexivity.
Qed.

Lemma filter_sublist {A} (f : A → bool) (l : list A) :
  sublist (List.filter f l) l.
Proof.
  induction l as [| x l IH]; simpl; [constructor |].
  destruct (f x); [by apply sublist_skip | by apply sublist_cons].
Qed.

Lemma map_sublist {A B} (f : A → B) (l1 l2 : list A) :
  sublist l1 l2 → sublist (map f l1) (map f l2).
Proof. induction 1; simpl; by constructor. Qed.

Lemma lower_char_idempotent c : lower_char (lower_char c) = lower_char c.
Proof. destruct c as [[] [] [] [] [] [] [] []]; reflexivity. Qed.

Lemma chars_str l : chars (str l) = l.
Proof. apply list_ascii_of_string_of_list_ascii. Qed.

Lemma chars_lower s : chars (lower s) = map lower_char (chars s).
Proof. unfold lower. apply chars_str. Qed.

(** The search of a keyword depends on the keyword up to case only. *)
Lemma pattern_search_same_lower kw kw' t :
  lower kw = lower kw' →
  pattern_search (compile kw) t = pattern_search (compile kw') t.
Proof.
  intros E. apply (f_equal chars) in E. rewrite !chars_lower in E.
  apply eq_true_iff_eq. rewrite !pattern_search_spec.
  by setoid_rewrite E.
Qed.

(** A keyword that was found is among the matched keywords as often as
    the configuration holds it, in whatever case. *)
Lemma matched_as_often (found : string → bool) (kws : list string) k :
  (∀ kw kw', lower kw = lower kw' → found kw = found kw') →
  k ∈ map lower (List.filter found kws) →
  length (filter (eq k) (map lower (List.filter found kws)))
  = length (filter (eq k) (map lower kws)).
Proof.
  intros Hf (kw0 & -> & Hkw0)%list_elem_of_fmap.
  apply list_elem_of_In, filter_In in Hkw0 as [_ Hkw0].
  induction kws as [| kw kws IH]; [done |].
  cbn [List.filter map]. rewrite (filter_cons _ (lower kw)).
  destruct (decide (lower kw0 = lower kw)) as [E | E].
  - rewrite <- (Hf _ _ E), Hkw0. cbn [map]. rewrite filter_cons.
    rewrite decide_True by done. simpl. by rewrite IH.
  - destruct (found kw); [| done]. cbn [map]. rewrite filter_cons.
    by rewrite decide_False by done.
Qed.

(** C5: what [calculate_relevance] computes, and where it is not the
    count of distinct keywords. The text searched is one lower-case
    text, the present (non-empty) fields among title, excerpt and
    abstract joined by spaces: it has no upper-case letter and is the
    joined text up to case. Each entry of the configured list is looked
    for once, so that an entry counts once however often it occurs; an
    entry is found where the text has it, whatever the case of the
    letters, with a word boundary on either side; the matched keywords
    are the entries that were found, in the order of the configuration,
    in lower case; and the score is their number. But the entries are
    counted, not the keywords: a keyword that was found is matched as
    often as the configuration holds it, in whatever case, so that the
    configuration of one keyword held twice scores 2 on "Zen practice";
    the score is the number of distinct keywords found when the
    configured keywords, in lower case, are distinct. *)
Theorem calculate_relevance_spec (kws : list string) (thr : Z)
    (item : DigestItem) :
  let self := RelevanceFilter_init kws thr in
  let joined :=
    join " " (omap nonempty [Some (title item); excerpt item; abstract item]) in
  let text := lower joined in
  let found := fun kw => pattern_search (compile kw) text in
  let matched := (calculate_relevance self item).2 in
  calculate_relevance self item
    = (Z.of_nat (length (List.filter found kws)),
       map lower (List.filter found kws))
  ∧ Forall (fun c => lower_char c = c) (chars text)
  ∧ map lower_char (chars text) = map lower_char (chars joined)
  ∧ (calculate_relevance self item).1 = Z.of_nat (length matched)
  ∧ 0 ≤ (calculate_relevance self item).1 ≤ Z.of_nat (length kws)
  ∧ sublist matched (keywords self)
  ∧ (∀ k, k ∈ matched →
          length (filter (eq k) matched)
          = length (filter (eq k) (keywords self)))
  ∧ (NoDup (keywords self) → NoDup matched)
  ∧ (∀ kw t,
       pattern_search (compile kw) t = true ↔
       ∃ pre mid post,
         chars t = pre ++ mid ++ post
         ∧ map lower_char mid = map lower_char (chars kw)
         ∧ boundary (last pre) (head (mid ++ post)) = true
         ∧ boundary (last (pre ++ mid)) (head post) = true)
  ∧ calculate_relevance (RelevanceFilter_init zen_twice 1) article_zen
    = (2, ["zen"; "zen"]%string)
  ∧ calculate_relevance (RelevanceFilter_init zen_in_two_cases 1) article_zen
    = (2, ["zen"; "zen"]%string)
  ∧ calculate_relevance (RelevanceFilter_init seven_keywords 1)
                        article_three_fields
    = (4, ["zen"; "sitting still"; "breath"; "practice on"]%string)
  ∧ pattern_search (compile "zen") (lower "citizen") = false
  ∧ pattern_search (compile "zen") (lower "Zen practice") = true
  ∧ pattern_search (compile "zen") "a zen." = true
  ∧ pattern_search (compile "zen") "zen2" = false
  ∧ pattern_search (compile "zen") "zen_garden" = false
  ∧ pattern_search (compile "zen") "XZEN" = false
  ∧ pattern_search (compile "zen") (lower zenon) = false.
Proof.
  intros self joined text found matched.
  assert (calculate_relevance self item
          = (Z.of_nat (length (List.filter found kws)),
             map lower (List.filter found kws))) as E.
  { unfold calculate_relevance. rewrite text_of_parts. fold joined. fold text.
    subst self. simpl. rewrite matched_acc. simpl.
    by rewrite length_map. }
  assert (sublist (map lower (List.filter found kws)) (map lower kws)) as Hs.
  { apply map_sublist, filter_sublist. }
  subst matched. rewrite E. cbn [fst snd].
  split; [done |].
  split.
  { unfold text. rewrite chars_lower. apply Forall_forall.
    intros c (c' & -> & _)%list_elem_of_fmap. apply lower_char_idempotent. }
  split.
  { unfold text. rewrite chars_lower, map_map. apply map_ext.
    intros c. apply lower_char_idempotent. }
  split; [by rewrite length_map |].
  split.
  { apply sublist_length in Hs. rewrite !length_map in Hs. lia. }
  split; [done |].
  split.
  { intros k Hk. apply matched_as_often; [| done].
    intros kw kw' Hkw. by apply pattern_search_same_lower. }
  split; [intros Hnd; exact (sublist_NoDup _ _ Hnd Hs) |].
  split; [apply pattern_search_spec |].
  repeat split; by vm_compute.
Qed.
End RelevanceFacts.

Lemma calculate_relevance_spec_witness :
  NoDup (calculate_relevance (RelevanceFilter_init two_keywords 1)
                             article_retreats).2
  ∧ calculate_relevance (RelevanceFilter_init two_keywords 1) article_retreats
    = (1, ["meditation"%string])
  ∧ length (filter (eq "zen"%string)
              (calculate_relevance (RelevanceFilter_init zen_twice 1)
                                   article_zen).2) = 2%nat.
Proof.
  split; [| split].
  - apply (calculate_relevance_spec two_keywords 1 article_retreats).
    apply (bool_decide_unpack _). vm_compute. reflexivity.
  - etrans;
      [apply (calculate_relevance_spec two_keywords 1 article_retreats) |].
    vm_compute. reflexivity.
  - destruct (calculate_relevance_spec zen_twice 1 article_zen)
      as (_ & _ & _ & _ & _ & _ & Hcount & _).
    rewrite (Hcount "zen"%string); [reflexivity |].
    vm_compute. left.
Defined.

(** ** Sorting by relevance *)

Section SortedFacts.
Context {A K : Type} (key : A → K) (cmp : K → K → result comparison).
Hypothesis cmp_asym :
  ∀ a b, cmp a b = Ok Lt → ∃ c, cmp b a = Ok c ∧ c ≠ Lt.
Hypothesis cmp_ge_trans :
  ∀ a b c ca cb, cmp a b = Ok ca → ca ≠ Lt → cmp b c = Ok cb → cb ≠ Lt →
                 ∃ cc, cmp a c = Ok cc ∧ cc ≠ Lt.

Lemma insert_desc_perm x l r : insert_desc key cmp x l = Ok r → r ≡ₚ x :: l.
Proof.
  revert r. induction l as [| y l IH]; intros r; simpl.
  - by intros [= <-].
  - destruct (cmp (key x) (key y)) as [c | e]; simpl; [| done].
    destruct c; try by intros [= <-].
    destruct (insert_desc key cmp x l) as [r' | e]; simpl; [| done].
    intros [= <-]. rewrite (IH r' eq_refl). apply Permutation_swap.
Qed.

Lemma sorted_reverse_perm l r : sorted_reverse key cmp l = Ok r → r ≡ₚ l.
Proof.
  revert r. induction l as [| x l IH]; intros r; simpl.
  - by intros [= <-].
  - destruct (sorted_reverse key cmp l) as [s | e]; simpl; [| done].
    intros H%insert_desc_perm. by rewrite H, (IH s eq_refl).
Qed.

Lemma insert_desc_sorted x l r :
  insert_desc key cmp x l = Ok r →
  StronglySorted (not_before key cmp) l →
  StronglySorted (not_before key cmp) r.
Proof.
  intros H Hs. revert r H.
  induction Hs as [| y l Hs IH Hy]; intros r; simpl.
  - intros [= <-]. repeat constructor.
  - destruct (cmp (key x) (key y)) as [c | e] eqn:E; simpl; [| done].
    assert (c ≠ Lt → StronglySorted (not_before key cmp) (x :: y :: l))
      as Hge.
    { intros Hc. constructor; [by constructor |].
      constructor; [by exists c |].
      eapply Forall_impl; [exact Hy |]. intros z (cz & Ez & Hz).
      by apply (cmp_ge_trans _ (key y) _ c cz). }
    destruct c.
    + intros [= <-]. by apply Hge.
    + destruct (insert_desc key cmp x l) as [r' | e] eqn:Er; simpl; [| done].
      intros [= <-]. constructor; [by apply IH |].
      rewrite (insert_desc_perm _ _ _ Er). constructor; [| done].
      by apply cmp_asym.
    + intros [= <-]. by apply Hge.
Qed.

Lemma sorted_reverse_sorted l r :
  sorted_reverse key cmp l = Ok r → StronglySorted (not_before key cmp) r.
Proof.
  revert r. induction l as [| x l IH]; intros r; simpl.
  - intros [= <-]. constructor.
  - destruct (sorted_reverse key cmp l) as [s | e]; simpl; [| done].
    intros H. apply (insert_desc_sorted _ _ _ H). by apply IH.
Qed.

(** Stability: an element is inserted before the elements that it does
    not precede strictly, hence before those with an equal key. *)
Lemma insert_desc_filter (P : A → Prop) `{!∀ x, Decision (P x)} x l r :
  (∀ y, P x → P y → cmp (key x) (key y) ≠ Ok Lt) →
  insert_desc key cmp x l = Ok r →
  filter P r = filter P (x :: l).
Proof.
  intros HP. revert r. induction l as [| y l IH]; intros r; simpl.
  - by intros [= <-].
  - destruct (cmp (key x) (key y)) as [c | e] eqn:E; simpl; [| done].
    destruct c; try by intros [= <-].
    destruct (insert_desc key cmp x l) as [r' | e]; simpl; [| done].
    intros [= <-]. rewrite filter_cons, (IH r' eq_refl), !filter_cons.
    destruct (decide (P y)) as [Py | Py]; [| done].
    destruct (decide (P x)) as [Px | Px]; [| done].
    by destruct (HP y Px Py).
Qed.

Lemma sorted_reverse_stable (P : A → Prop) `{!∀ x, Decision (P x)} l r :
  (∀ x y, P x → P y → cmp (key x) (key y) ≠ Ok Lt) →
  sorted_reverse key cmp l = Ok r →
  filter P r = filter P l.
Proof.
  intros HP. revert r. induction l as [| x l IH]; intros r; simpl.
  - by intros [= <-].
  - destruct (sorted_reverse key cmp l) as [s | e]; simpl; [| done].
    intros Hi. rewrite (insert_desc_filter P x s r);
      [| intros y; apply HP | done].
    by rewrite !filter_cons, (IH s eq_refl).
Qed.

(** A sort that raises has met two keys that cannot be compared. *)
Lemma insert_desc_Raise x l e :
  insert_desc key cmp x l = Raise e →
  ∃ y, y ∈ l ∧ cmp (key x) (key y) = Raise e.
Proof.
  induction l as [| y l IH]; simpl; [done |].
  destruct (cmp (key x) (key y)) as [c | e'] eqn:E; simpl.
  - destruct c; try done.
    destruct (insert_desc key cmp x l) as [r' | e'']; simpl; [done |].
    intros [= ->]. destruct IH as (z & Hz & Ez); [done |].
    exists z. split; [by right | done].
  - intros [= ->]. exists y. split; [left | done].
Qed.

Lemma sorted_reverse_Raise l e :
  sorted_reverse key cmp l = Raise e →
  ∃ x y, x ∈ l ∧ y ∈ l ∧ cmp (key x) (key y) = Raise e.
Proof.
  induction l as [| x l IH]; simpl; [done |].
  destruct (sorted_reverse key cmp l) as [s | e'] eqn:Es; simpl.
  - intros (y & Hy & Ey)%insert_desc_Raise.
    exists x, y. split; [left |]. split; [| done].
    right. by rewrite <- (sorted_reverse_perm _ _ Es).
  - intros [= ->]. destruct IH as (a & b & Ha & Hb & E); [done |].
    exists a, b. split; [by right |]. split; [by right | done].
Qed.
End SortedFacts.

Section KeyFacts.
Lemma lex_compare_refl a : lex_compare a a = Eq.
Proof. induction a as [| x a IH]; simpl; [done |]. by rewrite Z.compare_refl. Qed.

Lemma lex_compare_eq a b : lex_compare a b = Eq → a = b.
Proof.
  revert b. induction a as [| x a IH]; intros [| y b]; simpl; try done.
  destruct (x ?= y) eqn:E; try done.
  apply Z.compare_eq in E as ->. by intros ->%IH.
Qed.

Lemma lex_compare_antisym a b : lex_compare b a = CompOpp (lex_compare a b).
Proof.
  revert b. induction a as [| x a IH]; intros [| y b]; simpl; try done.
  rewrite (Z.compare_antisym x y).
  destruct (x ?= y); simpl; [apply IH | done | done].
Qed.

Lemma lex_compare_lt_trans a b c :
  lex_compare a b = Lt → lex_compare b c = Lt → lex_compare a c = Lt.
Proof.
  revert b c. induction a as [| x a IH]; intros [| y b] [| z c]; simpl;
    try done.
  destruct (x ?= y) eqn:Exy; try done.
  - apply Z.compare_eq in Exy as ->.
    destruct (y ?= z); try done. apply IH.
  - destruct (y ?= z) eqn:Eyz; try done.
    + apply Z.compare_eq in Eyz as ->. by rewrite Exy.
    + intros _ _.
      assert ((x ?= z) = Lt) as ->; [| done].
      rewrite Z.compare_lt_iff in Exy, Eyz |- *. lia.
Qed.

Lemma lex_compare_asym a b : lex_compare a b = Lt → lex_compare b a ≠ Lt.
Proof. intros H. rewrite lex_compare_antisym, H. done. Qed.

Lemma lex_compare_ge_trans a b c :
  lex_compare a b ≠ Lt → lex_compare b c ≠ Lt → lex_compare a c ≠ Lt.
Proof.
  intros Hab Hbc Hac.
  destruct (lex_compare a b) eqn:Eab; [| done |].
  - apply lex_compare_eq in Eab as ->. done.
  - destruct (lex_compare b c) eqn:Ebc; [| done |].
    + apply lex_compare_eq in Ebc as ->. congruence.
    + assert (lex_compare c b = Lt) as Hcb
        by (rewrite lex_compare_antisym, Ebc; done).
      pose proof (lex_compare_lt_trans _ _ _ Hac Hcb) as Hlt. congruence.
Qed.

Lemma dt_compare_eq a b : dt_compare a b = Eq → a = b.
Proof.
  intros H%lex_compare_eq. destruct a, b. unfold dt_key in H. simpl in H.
  congruence.
Qed.

(** The dates that can be compared are those of one kind. *)
Lemma datetime_compare_Raise a b e :
  datetime_compare a b = Raise e ↔ e = TypeError ∧ is_aware a ≠ is_aware b.
Proof.
  destruct a, b; simpl; split; try done;
    try (by intros [= <-]); try (by intros [_ ?]); by intros [-> _].
Qed.

Lemma datetime_compare_Ok a b c :
  datetime_compare a b = Ok c → is_aware a = is_aware b.
Proof. by destruct a, b. Qed.

Lemma datetime_compare_asym a b :
  datetime_compare a b = Ok Lt → ∃ c, datetime_compare b a = Ok c ∧ c ≠ Lt.
Proof.
  destruct a as [x | x ox], b as [y | y oy]; simpl; try done; intros [= H].
  - eexists. split; [done |]. by apply lex_compare_asym.
  - eexists. split; [done |]. rewrite Z.compare_antisym, H. done.
Qed.

Lemma datetime_compare_ge_trans a b c ca cb :
  datetime_compare a b = Ok ca → ca ≠ Lt →
  datetime_compare b c = Ok cb → cb ≠ Lt →
  ∃ cc, datetime_compare a c = Ok cc ∧ cc ≠ Lt.
Proof.
  destruct a as [x | x ox], b as [y | y oy], c as [z | z oz]; simpl;
    try done; intros [= <-] Ha [= <-] Hb; eexists; (split; [done |]).
  - by apply (lex_compare_ge_trans _ (dt_key y)).
  - rewrite Z.compare_ge_iff in Ha, Hb |- *. lia.
Qed.

Lemma key_compare_asym a b :
  key_compare a b = Ok Lt → ∃ c, key_compare b a = Ok c ∧ c ≠ Lt.
Proof.
  unfold key_compare. rewrite (Z.compare_antisym a.1 b.1).
  destruct (a.1 ?= b.1); simpl.
  - apply datetime_compare_asym.
  - intros _. by exists Gt.
  - done.
Qed.

Lemma key_compare_ge_trans a b c ca cb :
  key_compare a b = Ok ca → ca ≠ Lt → key_compare b c = Ok cb → cb ≠ Lt →
  ∃ cc, key_compare a c = Ok cc ∧ cc ≠ Lt.
Proof.
  unfold key_compare.
  destruct (a.1 ?= b.1) eqn:Eab; [| by intros [= <-] | ];
    (destruct (b.1 ?= c.1) eqn:Ebc; [| by intros ? ? [= <-] | ]).
  - apply Z.compare_eq in Eab, Ebc.
    replace (a.1 ?= c.1) with Eq
      by (symmetry; apply Z.compare_eq_iff; lia).
    apply datetime_compare_ge_trans.
  - apply Z.compare_eq in Eab. rewrite Z.compare_gt_iff in Ebc.
    intros _ _ _ _.
    replace (a.1 ?= c.1) with Gt
      by (symmetry; apply Z.compare_gt_iff; lia).
    by exists Gt.
  - apply Z.compare_eq in Ebc. rewrite Z.compare_gt_iff in Eab.
    intros _ _ _ _.
    replace (a.1 ?= c.1) with Gt
      by (symmetry; apply Z.compare_gt_iff; lia).
    by exists Gt.
  - rewrite Z.compare_gt_iff in Eab, Ebc.
    intros _ _ _ _.
    replace (a.1 ?= c.1) with Gt
      by (symmetry; apply Z.compare_gt_iff; lia).
    by exists Gt.
Qed.

(** The keys that cannot be compared: equal scores, and one date naive
    and the other aware. *)
Lemma key_compare_Raise a b e :
  key_compare a b = Raise e ↔
  e = TypeError ∧ a.1 = b.1 ∧ is_aware a.2 ≠ is_aware b.2.
Proof.
  unfold key_compare. destruct (a.1 ?= b.1) eqn:E.
  - apply Z.compare_eq in E. rewrite datetime_compare_Raise. tauto.
  - rewrite Z.compare_lt_iff in E. split; [done |]. intros (_ & ? & _). lia.
  - rewrite Z.compare_gt_iff in E. split; [done |]. intros (_ & ? & _). lia.
Qed.

(** The order of the keys, read on the items. *)
Lemma key_compare_not_lt (a b : DigestItem) :
  not_before sort_key key_compare a b ↔
  relevance_score b < relevance_score a
  ∨ (relevance_score a = relevance_score b
     ∧ ∃ c, datetime_compare (effective_date a) (effective_date b) = Ok c
            ∧ c ≠ Lt).
Proof.
  unfold not_before, key_compare, sort_key. simpl.
  destruct (relevance_score a ?= relevance_score b) eqn:E.
  - apply Z.compare_eq in E. split.
    + intros H. right. by split.
    + intros [H | [_ H]]; [lia | done].
  - rewrite Z.compare_lt_iff in E. split.
    + by intros (c & [= <-] & ?).
    + intros [H | [H _]]; lia.
  - rewrite Z.compare_gt_iff in E. split; [intros _; by left |].
    intros _. by exists Gt.
Qed.

(** Inserting an item into a sorted list that holds an item of the same
    score whose date is of the other kind raises: the items of that
    score stand together, and the first of them is met. *)
Lemma insert_desc_unordered (x : DigestItem) (s : list DigestItem) :
  StronglySorted (not_before sort_key key_compare) s →
  (∃ y, y ∈ s ∧ relevance_score y = relevance_score x
        ∧ is_aware (effective_date y) ≠ is_aware (effective_date x)) →
  insert_desc sort_key key_compare x s = Raise TypeError.
Proof.
  induction 1 as [| z s Hs IH Hz]; intros (y & Hy & Hsc & Hk).
  - by apply elem_of_nil in Hy.
  - simpl.
    destruct (key_compare (sort_key x) (sort_key z)) as [c | e] eqn:E; simpl.
    + assert (y ∈ s) as Hys.
      { apply elem_of_cons in Hy as [-> | Hy]; [| done]. exfalso.
        assert (key_compare (sort_key x) (sort_key z) = Raise TypeError)
          as E'; [| congruence].
        apply key_compare_Raise. simpl. split; [done |]. split; [done |].
        congruence. }
      assert (c = Lt) as ->.
      { destruct (decide (c = Lt)) as [-> | Hc]; [done |]. exfalso.
        rewrite Forall_forall in Hz.
        pose proof (Hz y Hys) as Hzy. apply key_compare_not_lt in Hzy.
        assert (not_before sort_key key_compare x z) as Hxz
          by (by exists c).
        apply key_compare_not_lt in Hxz.
        destruct Hxz as [Hxz | [Hxz (c1 & E1%datetime_compare_Ok & _)]];
          destruct Hzy as [Hzy | [Hzy (c2 & E2%datetime_compare_Ok & _)]];
          try lia.
        congruence. }
      rewrite IH; [done |]. by exists y.
    + by apply key_compare_Raise in E as [-> _].
Qed.

Lemma sorted_reverse_unordered (l : list DigestItem) :
  (∃ x y, x ∈ l ∧ y ∈ l ∧ relevance_score x = relevance_score y
          ∧ is_aware (effective_date x) ≠ is_aware (effective_date y)) →
  sorted_reverse sort_key key_compare l = Raise TypeError.
Proof.
  induction l as [| a l IH]; intros (x & y & Hx & Hy & Hsc & Hk).
  - by apply elem_of_nil in Hx.
  - simpl.
    destruct (sorted_reverse sort_key key_compare l) as [s | e] eqn:Es; simpl.
    + pose proof (sorted_reverse_sorted sort_key key_compare
                    key_compare_asym key_compare_ge_trans _ _ Es) as Hs.
      pose proof (sorted_reverse_perm _ _ _ _ Es) as Hp.
      apply elem_of_cons in Hx as [-> | Hx];
        apply elem_of_cons in Hy as [-> | Hy].
      * done.
      * apply insert_desc_unordered; [done |].
        exists y. rewrite Hp. split; [done |]. split; congruence.
      * apply insert_desc_unordered; [done |].
        exists x. rewrite Hp. by split.
      * exfalso. assert (∃ x y, x ∈ l ∧ y ∈ l
                 ∧ relevance_score x = relevance_score y
                 ∧ is_aware (effective_date x) ≠ is_aware (effective_date y))
          as Hl by (by exists x, y).
        apply IH in Hl. congruence.
    + apply sorted_reverse_Raise in Es as (u & v & _ & _ & E).
      by apply key_compare_Raise in E as [-> _].
Qed.
End KeyFacts.

Lemma StronglySorted_weaken {A} (R R' : A → A → Prop) (l : list A) :
  (∀ a b, R a b → R' a b) → StronglySorted R l → StronglySorted R' l.
Proof.
  intros HR. induction 1 as [| x l Hs IH Hx]; constructor; [done |].
  eapply Forall_impl; [exact Hx |]. intros y. apply HR.
Qed.

(** C6: [score_and_sort] gives every item its score and matched
    keywords, whatever the threshold, and leaves the rest of the item as
    it was. It then sorts, and raises [TypeError] instead of returning
    when two of the items have the same score and effective dates
    ([date_published] when present, else [date_fetched]) of which one is
    naive and the other aware; nothing else makes it raise. When it
    returns, the scored items come ordered by score, highest first, then
    by effective date, latest first, and the items with equal score and
    equal effective date keep the order they had in the input. *)
Theorem score_and_sort_spec (self : RelevanceFilter) (items : list DigestItem) :
  let scored :=
    map (fun item =>
           set_relevance item (calculate_relevance self item).1
                              (calculate_relevance self item).2) items in
  let date_of := fun x =>
    match date_published x with Some d => d | None => date_fetched x end in
  let unordered := fun x y =>
    relevance_score x = relevance_score y
    ∧ is_aware (date_of x) ≠ is_aware (date_of y) in
  Forall2
    (fun item x =>
       relevance_score x = (calculate_relevance self item).1
       ∧ matched_keywords x = (calculate_relevance self item).2
       ∧ set_relevance x (relevance_score item) (matched_keywords item)
         = item)
    items scored
  ∧ (∀ x y, x ∈ scored → y ∈ scored → unordered x y →
       score_and_sort self items = Raise TypeError)
  ∧ (∀ e, score_and_sort self items = Raise e →
       e = TypeError ∧ ∃ x y, x ∈ scored ∧ y ∈ scored ∧ unordered x y)
  ∧ ((∀ x y, x ∈ scored → y ∈ scored → ¬ unordered x y) →
     ∃ out, score_and_sort self items = Ok out)
  ∧ (∀ out, score_and_sort self items = Ok out →
       out ≡ₚ scored
       ∧ StronglySorted
           (fun a b =>
              relevance_score b < relevance_score a
              ∨ (relevance_score a = relevance_score b
                 ∧ ∃ c, datetime_compare (date_of a) (date_of b) = Ok c
                        ∧ c ≠ Lt))
           out
       ∧ ∀ score date,
           filter (fun x => relevance_score x = score
                            ∧ datetime_eq (date_of x) date = true) out
           = filter (fun x => relevance_score x = score
                              ∧ datetime_eq (date_of x) date = true) scored).
Proof.
  intros scored date_of unordered.
  assert (score_and_sort self items
          = sorted_reverse sort_key key_compare scored) as ->.
  { unfold score_and_sort, scored. f_equal.
    all: apply map_ext; intros item.
    all: by destruct (calculate_relevance self item). }
  assert (∀ e, sorted_reverse sort_key key_compare scored = Raise e →
               e = TypeError
               ∧ ∃ x y, x ∈ scored ∧ y ∈ scored ∧ unordered x y) as Hraise.
  { intros e (x & y & Hx & Hy & E)%sorted_reverse_Raise.
    apply key_compare_Raise in E as (-> & Hsc & Hk).
    split; [done |]. by exists x, y. }
  split.
  { unfold scored. apply Forall2_fmap_r, Forall_Forall2_diag, Forall_forall.
    intros item _. by destruct item. }
  split.
  { intros x y Hx Hy [Hsc Hk]. apply sorted_reverse_unordered.
    by exists x, y. }
  split; [exact Hraise |].
  split.
  { intros Hall.
    destruct (sorted_reverse sort_key key_compare scored) as [out | e] eqn:E;
      [by exists out |].
    destruct (Hraise e eq_refl) as (_ & x & y & Hx & Hy & Hu).
    by destruct (Hall x y Hx Hy). }
  intros out E.
  split; [by apply (sorted_reverse_perm _ _ _ _ E) |].
  split.
  - apply (StronglySorted_weaken (not_before sort_key key_compare)).
    + intros a b H. by apply key_compare_not_lt in H.
    + apply (sorted_reverse_sorted sort_key key_compare
               key_compare_asym key_compare_ge_trans _ _ E).
  - intros score date.
    apply (sorted_reverse_stable sort_key key_compare _ _ _); [| exact E].
    intros x y [Hx1 Hx2] [Hy1 Hy2].
    unfold key_compare, sort_key. simpl. rewrite Hx1, Hy1, Z.compare_refl.
    change (effective_date x) with (date_of x).
    change (effective_date y) with (date_of y).
    destruct (date_of x) as [dx | dx ox], (date_of y) as [dy | dy oy],
      date as [d | d o]; cbn [datetime_eq datetime_compare] in *; try done.
    + apply bool_decide_eq_true in Hx2 as ->.
      apply bool_decide_eq_true in Hy2 as ->.
      unfold dt_compare. by rewrite lex_compare_refl.
    + apply Z.eqb_eq in Hx2, Hy2.
      replace (instant dx ox ?= instant dy oy) with Eq; [done |].
      symmetry. apply Z.compare_eq_iff. lia.
Qed.

Lemma score_and_sort_spec_witness :
  score_and_sort (RelevanceFilter_init two_keywords 1)
                 [article_feed_date; article_second]
  = Raise TypeError
  ∧ ∃ out,
      score_and_sort (RelevanceFilter_init two_keywords 1)
        [article_tips; article_first; article_retreats; article_second]
      = Ok out
      ∧ map title out
        = ["Mindfulness at work"; "A Study of Meditation Retreats";
           "Mindfulness at school"; "Urban Gardening Tips"]%string
      ∧ map relevance_score out = [1; 1; 1; 0]
      ∧ map matched_keywords out
        = [["mindfulness"]; ["meditation"]; ["mindfulness"]; []]%string.
Proof.
  split.
  - destruct (score_and_sort_spec (RelevanceFilter_init two_keywords 1)
                [article_feed_date; article_second]) as (_ & Hraise & _).
    apply (Hraise
             (set_relevance article_feed_date 1 ["mindfulness"%string])
             (set_relevance article_second 1 ["mindfulness"%string])).
    + left.
    + right. left.
    + split; [reflexivity | discriminate].
  - destruct (score_and_sort_spec (RelevanceFilter_init two_keywords 1)
                [article_tips; article_first; article_retreats;
                 article_second]) as (_ & _ & _ & Hok & _).
    destruct Hok as [out E].
    + intros x y Hx Hy [_ Hk]. apply Hk.
      assert (∀ z, z ∈ map (fun item =>
                     set_relevance item
                       (calculate_relevance
                          (RelevanceFilter_init two_keywords 1) item).1
                       (calculate_relevance
                          (RelevanceFilter_init two_keywords 1) item).2)
                     [article_tips; article_first; article_retreats;
                      article_second] →
                   is_aware match date_published z with
                            | Some d => d
                            | None => date_fetched z
                            end = false) as Hn.
      { intros z Hz. simpl in Hz.
        repeat (apply elem_of_cons in Hz as [-> | Hz]; [reflexivity |]).
        by apply elem_of_nil in Hz. }
      by rewrite (Hn x Hx), (Hn y Hy).
    + exists out. split; [exact E |].
      assert (Ok out
              = Ok [set_relevance article_first 1 ["mindfulness"%string];
                    set_relevance article_retreats 1 ["meditation"%string];
                    set_relevance article_second 1 ["mindfulness"%string];
                    set_relevance article_tips 0 []]) as [= ->].
      { rewrite <- E. vm_compute. reflexivity. }
      repeat split.
Defined.

(** ** ISO-8601 text of a datetime, there and back *)

Section IsoFacts.

Lemma char_digit_digit_char d :
  0 ≤ d < 10 → char_digit (digit_char d) = Some d.
Proof.
  intros H.
  assert (d = 0 ∨ d = 1 ∨ d = 2 ∨ d = 3 ∨ d = 4 ∨ d = 5 ∨ d = 6 ∨ d = 7
          ∨ d = 8 ∨ d = 9) as Hd by lia.
  repeat (destruct Hd as [-> | Hd]; [reflexivity |]). by subst.
Qed.

Lemma digit_char_no_sign d :
  0 ≤ d < 10 →
  Ascii.eqb "-" (digit_char d) = false ∧ Ascii.eqb "+" (digit_char d) = false.
Proof.
  intros H.
  assert (d = 0 ∨ d = 1 ∨ d = 2 ∨ d = 3 ∨ d = 4 ∨ d = 5 ∨ d = 6 ∨ d = 7
          ∨ d = 8 ∨ d = 9) as Hd by lia.
  repeat (destruct Hd as [-> | Hd]; [by split |]). by subst.
Qed.

Lemma read_digits_zfill k n acc rest :
  0 ≤ n →
  read_digits k acc (zfill k n ++ rest)
  = Some (acc * 10 ^ Z.of_nat k + n mod 10 ^ Z.of_nat k, rest).
Proof.
  intros Hn. revert acc. induction k as [| k IH]; intros acc.
  - simpl. rewrite Z.mod_1_r. do 2 f_equal. lia.
  - change (zfill (S k) n)
      with (digit_char ((n / 10 ^ Z.of_nat k) mod 10) :: zfill k n).
    simpl read_digits. rewrite char_digit_digit_char
      by (apply Z.mod_pos_bound; lia).
    rewrite IH. do 2 f_equal.
    rewrite Nat2Z.inj_succ, Z.pow_succ_r by lia.
    rewrite (Z.mul_comm 10), Z.rem_mul_r by lia. lia.
Qed.

Lemma read_digits_zfill_small k n rest :
  0 ≤ n < 10 ^ Z.of_nat k →
  read_digits k 0 (zfill k n ++ rest) = Some (n, rest).
Proof.
  intros H. rewrite read_digits_zfill by lia.
  rewrite Z.mod_small by lia. do 2 f_equal.
Qed.

Lemma zfill_no_sign k n : Forall no_sign (zfill k n).
Proof.
  induction k as [| k IH]; simpl; constructor; [| done].
  apply digit_char_no_sign, Z.mod_pos_bound. lia.
Qed.

Lemma split_at_none c l :
  Forall (fun x => Ascii.eqb c x = false) l → split_at c l = None.
Proof.
  induction 1 as [| x l Hx Hl IH]; simpl; [done |]. by rewrite Hx, IH.
Qed.

Lemma split_offset_none l :
  Forall no_sign l → split_offset l = (l, None).
Proof.
  intros H. unfold split_offset.
  rewrite !split_at_none; [done | |];
    (eapply Forall_impl; [exact H |]); by intros x [? ?].
Qed.

Lemma time_chars_no_sign d : Forall no_sign (time_chars d).
Proof.
  unfold time_chars.
  repeat (apply Forall_app; split); try apply zfill_no_sign;
    try (by repeat constructor).
  destruct (microsecond d =? 0); [constructor |].
  apply Forall_app; split; [by repeat constructor | apply zfill_no_sign].
Qed.

Lemma datetime_ok_ranges d :
  datetime_ok d = true →
  (1 ≤ Py.year d ≤ 9999) ∧ (1 ≤ month d ≤ 12) ∧ (1 ≤ day d ≤ 31)
  ∧ (0 ≤ hour d < 24) ∧ (0 ≤ minute d < 60) ∧ (0 ≤ second d < 60)
  ∧ (0 ≤ microsecond d < 1000000).
Proof.
  unfold datetime_ok. rewrite !andb_true_iff, !Z.leb_le, !Z.ltb_lt.
  intros H.
  assert (days_in_month (Py.year d) (month d) ≤ 31) as Hdim.
  { unfold days_in_month. destruct (_ && _); [lia |].
    generalize (Z.to_nat (month d)). intros n.
    do 13 (destruct n as [| n]; [simpl; lia |]).
    simpl. destruct n; lia. }
  lia.
Qed.

Local Opaque zfill read_digits.

Lemma parse_time_chars d :
  datetime_ok d = true →
  parse_hh_mm_ss_ff (time_chars d)
  = Some (hour d, minute d, second d, microsecond d).
Proof.
  intros (_ & _ & _ & Hh & Hm & Hs & Hus)%datetime_ok_ranges.
  unfold parse_hh_mm_ss_ff, time_chars. simpl.
  rewrite read_digits_zfill_small by (simpl; lia). simpl.
  rewrite read_digits_zfill_small by (simpl; lia). simpl.
  destruct (microsecond d =? 0) eqn:E.
  - apply Z.eqb_eq in E. rewrite read_digits_zfill_small by (simpl; lia).
    by rewrite E.
  - rewrite read_digits_zfill_small by (simpl; lia). simpl.
    rewrite <- (app_nil_r (zfill 6 _)).
    by rewrite read_digits_zfill_small by (simpl; lia).
Qed.

Local Transparent zfill.

Lemma time_chars_cons d : ∃ c t, time_chars d = c :: t.
Proof. unfold time_chars. simpl. eauto. Qed.

Local Opaque zfill.

(** [fromisoformat] reads back what [isoformat] wrote. *)
Lemma fromisoformat_isoformat d :
  datetime_ok d = true → fromisoformat (isoformat d) = IsoNaive d.
Proof.
  intros Hok. pose proof (datetime_ok_ranges d Hok)
    as (Hy & Hmo & Hd & _).
  unfold fromisoformat, isoformat, chars, str.
  rewrite list_ascii_of_string_of_list_ascii.
  unfold isoformat_chars, fromisoformat_chars.
  simpl.
  rewrite read_digits_zfill_small by (simpl; lia). simpl.
  rewrite read_digits_zfill_small by (simpl; lia). simpl.
  rewrite read_digits_zfill_small by (simpl; lia).
  destruct (time_chars_cons d) as (c & t & E). rewrite E, <- E.
  rewrite split_offset_none by apply time_chars_no_sign.
  rewrite parse_time_chars by done.
  destruct d. simpl in *. by rewrite Hok.
Qed.

Lemma isoformat_not_empty d : String.eqb (isoformat d) EmptyString = false.
Proof. reflexivity. Qed.

(** The same for a datetime with a UTC offset. *)
Lemma split_at_app c l r :
  Forall (fun x => Ascii.eqb c x = false) l →
  split_at c (l ++ c :: r) = Some (l, r).
Proof.
  induction 1 as [| x l Hx Hl IH]; simpl.
  - by rewrite Ascii.eqb_refl.
  - by rewrite Hx, IH.
Qed.

Lemma offset_body_no_sign a : Forall no_sign (offset_body a).
Proof.
  unfold offset_body.
  repeat (apply Forall_app; split); try apply zfill_no_sign;
    try (by repeat constructor).
  destruct (a mod 60000000 =? 0); [constructor |].
  repeat (apply Forall_app; split); try apply zfill_no_sign;
    try (by repeat constructor).
  destruct (a mod 1000000 =? 0); [constructor |].
  apply Forall_app; split; [by repeat constructor | apply zfill_no_sign].
Qed.

Lemma split_offset_offset t off :
  Forall no_sign t →
  split_offset (t ++ offset_chars off)
  = (t, Some (off <? 0, offset_body (Z.abs off))).
Proof.
  intros Ht. unfold split_offset, offset_chars.
  assert (Forall (fun x => Ascii.eqb "-" x = false) t) as Hm
    by (eapply Forall_impl; [exact Ht |]; by intros x [? ?]).
  assert (Forall (fun x => Ascii.eqb "+" x = false) t) as Hp
    by (eapply Forall_impl; [exact Ht |]; by intros x [? ?]).
  destruct (off <? 0).
  - change (chars "-" ++ offset_body (Z.abs off))
      with ("-"%char :: offset_body (Z.abs off)).
    by rewrite split_at_app.
  - change (chars "+" ++ offset_body (Z.abs off))
      with ("+"%char :: offset_body (Z.abs off)).
    rewrite split_at_none.
    + by rewrite split_at_app.
    + apply Forall_app. split; [done |]. constructor; [done |].
      eapply Forall_impl; [apply offset_body_no_sign |]. by intros x [? ?].
Qed.

Local Transparent zfill.

Lemma length_zfill k n : length (zfill k n) = k.
Proof. induction k as [| k IH]; simpl; [done |]. by rewrite IH. Qed.

Local Opaque zfill.

Lemma parse_offset_body neg a :
  0 ≤ a < 86400000000 →
  parse_offset neg (offset_body a)
  = Some (if a <? 1000000 then 0 else if neg then - a else a).
Proof.
  intros Ha.
  assert (0 ≤ a / 3600000000 < 100 ∧ 0 ≤ a mod 3600000000 / 60000000 < 100
          ∧ 0 ≤ a mod 60000000 / 1000000 < 100 ∧ 0 ≤ a mod 1000000 < 1000000
          ∧ ((a / 3600000000 * 60 + a mod 3600000000 / 60000000) * 60
             + a mod 60000000 / 1000000) * 1000000 + a mod 1000000 = a
          ∧ (a mod 60000000 = 0 →
             a mod 60000000 / 1000000 = 0 ∧ a mod 1000000 = 0))
    as (Hh & Hm & Hs & Hu & Hsum & Hzero)
    by (Z.div_mod_to_equations; lia).
  assert ((length (offset_body a) =? 5)%nat
          || (length (offset_body a) =? 8)%nat
          || (length (offset_body a) =? 15)%nat = true) as Hlen.
  { unfold offset_body.
    destruct (a mod 60000000 =? 0); [| destruct (a mod 1000000 =? 0)];
      by rewrite !length_app, !length_zfill. }
  assert (parse_hh_mm_ss_ff (offset_body a)
          = Some (a / 3600000000, a mod 3600000000 / 60000000,
                  a mod 60000000 / 1000000, a mod 1000000)) as Hparse.
  { unfold parse_hh_mm_ss_ff, offset_body. simpl.
    rewrite read_digits_zfill_small by (simpl; lia). simpl.
    rewrite read_digits_zfill_small by (simpl; lia).
    destruct (a mod 60000000 =? 0) eqn:E1.
    - apply Z.eqb_eq in E1. destruct (Hzero E1) as [-> ->]. done.
    - simpl. rewrite read_digits_zfill_small by (simpl; lia).
      destruct (a mod 1000000 =? 0) eqn:E2.
      + apply Z.eqb_eq in E2. by rewrite E2.
      + simpl. rewrite <- (app_nil_r (zfill 6 _)).
        by rewrite read_digits_zfill_small by (simpl; lia). }
  unfold parse_offset. rewrite Hlen, Hparse. cbv beta iota zeta.
  rewrite Hsum.
  assert (((a / 3600000000 * 60 + a mod 3600000000 / 60000000) * 60
           + a mod 60000000 / 1000000 =? 0) = (a <? 1000000)) as ->.
  { destruct (a <? 1000000) eqn:E;
      [apply Z.ltb_lt in E; apply Z.eqb_eq
      | apply Z.ltb_ge in E; apply Z.eqb_neq];
      Z.div_mod_to_equations; lia. }
  destruct (a <? 1000000); [done |].
  destruct (a <? 86400000000) eqn:E; [done |].
  apply Z.ltb_ge in E. lia.
Qed.

Local Opaque offset_chars offset_body.

(** [fromisoformat] reads back what [isoformat] wrote, but for an
    offset that is a fraction of a second. *)
Lemma fromisoformat_read_back v :
  pydatetime_ok v = true →
  fromisoformat (py_isoformat v) = parsed (read_back v).
Proof.
  destruct v as [d | d off]; simpl; [apply fromisoformat_isoformat |].
  rewrite !andb_true_iff, !Z.ltb_lt. intros [[Hok Hlo] Hhi].
  pose proof (datetime_ok_ranges d Hok) as (Hy & Hmo & Hd & _).
  unfold fromisoformat, chars, str.
  rewrite list_ascii_of_string_of_list_ascii.
  unfold isoformat_chars, fromisoformat_chars.
  rewrite <- !app_assoc. simpl.
  rewrite read_digits_zfill_small by (simpl; lia). simpl.
  rewrite read_digits_zfill_small by (simpl; lia). simpl.
  rewrite read_digits_zfill_small by (simpl; lia).
  destruct (time_chars_cons d) as (c & t & E). rewrite E.
  rewrite <- app_comm_cons, app_comm_cons, <- E.
  rewrite split_offset_offset by apply time_chars_no_sign.
  rewrite parse_time_chars by done.
  rewrite parse_offset_body by lia.
  replace (if off <? 0 then - Z.abs off else Z.abs off) with off
    by (destruct (off <? 0) eqn:E';
        [apply Z.ltb_lt in E' | apply Z.ltb_ge in E']; lia).
  destruct d. simpl in *. rewrite Hok. by destruct (Z.abs off <? 1000000).
Qed.

Lemma read_back_whole_offset v : whole_offset v = true → read_back v = v.
Proof.
  destruct v as [d | d off]; simpl; [done |].
  rewrite orb_true_iff, Z.eqb_eq, Z.leb_le. intros H.
  destruct (Z.abs off <? 1000000) eqn:E; [| done].
  apply Z.ltb_lt in E. f_equal. lia.
Qed.

Lemma fromisoformat_py_isoformat v :
  pydatetime_ok v = true → whole_offset v = true →
  fromisoformat (py_isoformat v) = parsed v.
Proof.
  intros Hok Hw. by rewrite fromisoformat_read_back, read_back_whole_offset.
Qed.

Lemma py_isoformat_not_empty v :
  String.eqb (py_isoformat v) EmptyString = false.
Proof. by destruct v. Qed.
End IsoFacts.

(** ** Serialization of items *)

Section SerializationFacts.

Lemma dict_get_set_eq k v (d : pydict) : dict_get k (dict_set k v d) = Some v.
Proof.
  induction d as [| [k' v'] d IH]; simpl.
  - by rewrite String.eqb_refl.
  - destruct (String.eqb k k') eqn:E; simpl.
    + by rewrite String.eqb_refl.
    + by rewrite E.
Qed.

Lemma dict_get_set_ne k k' v (d : pydict) :
  k ≠ k' → dict_get k' (dict_set k v d) = dict_get k' d.
Proof.
  intros Hne. induction d as [| [k0 v0] d IH]; simpl.
  - destruct (String.eqb k' k) eqn:E; [| done].
    apply String.eqb_eq in E. congruence.
  - destruct (String.eqb k k0) eqn:E; simpl.
    + apply String.eqb_eq in E as <-.
      destruct (String.eqb k' k) eqn:E'; [| done].
      apply String.eqb_eq in E'. congruence.
    + by rewrite IH.
Qed.

Lemma authors_from_asdict (l : list Author) :
  map_result Author_kwargs (map asdict_author l) = Ok (map author_object l).
Proof.
  induction l as [| a l IH]; simpl; [done |].
  change (Author_kwargs (asdict_author a)) with (Ok (author_object a)).
  simpl. by rewrite IH.
Qed.

Lemma as_author_object (l : list Author) :
  mapM as_author (map author_object l) = Some l.
Proof.
  induction l as [| a l IH]; simpl; [done |].
  rewrite IH. by destruct a as [n [i |] [af |]].
Qed.

Lemma as_str_PStr (l : list string) : mapM as_str (map PStr l) = Some l.
Proof. induction l as [| a l IH]; simpl; [done |]. by rewrite IH. Qed.

Lemma ItemType_of_value t : ItemType_of (PStr (ItemType_value t)) = Ok t.
Proof. by destruct t. Qed.

Lemma SourceType_of_value t : SourceType_of (PStr (SourceType_value t)) = Ok t.
Proof. by destruct t. Qed.

Lemma py_fromisoformat_py_isoformat v :
  pydatetime_ok v = true → whole_offset v = true →
  py_fromisoformat (PStr (py_isoformat v)) = Ok (datetime_value v).
Proof.
  intros H Hw. unfold py_fromisoformat.
  rewrite (fromisoformat_py_isoformat v H Hw). by destruct v.
Qed.

Lemma as_datetime_value v : as_datetime (datetime_value v) = Some v.
Proof. by destruct v. Qed.

Lemma as_opt_datetime_value v :
  as_opt_datetime (datetime_value v) = Some (Some v).
Proof. by destruct v. Qed.

Lemma as_opt_datetime_None : as_opt_datetime PNone = Some None.
Proof. reflexivity. Qed.

Local Opaque py_isoformat py_fromisoformat fromisoformat
  datetime_value as_datetime as_opt_datetime.

(** C9, amended: for an item none of whose datetimes has a UTC offset
    that is a fraction of a second, [from_dict] applied to the
    dictionary that [to_dict] returns gives back the item, equal in
    every field; on the way the two enums are written as their string
    tags and read back from them, the datetimes, naive or aware, are
    written as ISO-8601 text and read back from it, and an optional
    field that is absent is written as [None] (JSON [null]), not as an
    empty string. Whatever the offset, the text of a datetime is read
    back as that datetime with an offset under a second made zero. *)
Theorem from_dict_to_dict (now : datetime) (item : DigestItem) :
  item_ok item →
  let null_or := fun (o : option string) =>
    match o with Some s => PStr s | None => PNone end in
  (∃ data', from_dict now (to_dict item) = Ok (data', Some item))
  ∧ dict_get "item_type" (to_dict item)
    = Some (PStr (ItemType_value (item_type item)))
  ∧ ItemType_of (PStr (ItemType_value (item_type item))) = Ok (item_type item)
  ∧ dict_get "source_type" (to_dict item)
    = Some (PStr (SourceType_value (source_type item)))
  ∧ SourceType_of (PStr (SourceType_value (source_type item)))
    = Ok (source_type item)
  ∧ dict_get "date_fetched" (to_dict item)
    = Some (PStr (py_isoformat (date_fetched item)))
  ∧ fromisoformat (py_isoformat (date_fetched item))
    = parsed (date_fetched item)
  ∧ dict_get "date_published" (to_dict item)
    = Some (match date_published item with
            | Some d => PStr (py_isoformat d)
            | None => PNone
            end)
  ∧ (∀ d, date_published item = Some d →
          fromisoformat (py_isoformat d) = parsed d)
  ∧ (∀ d, date_fetched item = Naive d →
          dict_get "date_fetched" (to_dict item) = Some (PStr (isoformat d))
          ∧ fromisoformat (isoformat d) = IsoNaive d)
  ∧ (∀ d, date_published item = Some (Naive d) →
          dict_get "date_published" (to_dict item)
          = Some (PStr (isoformat d))
          ∧ fromisoformat (isoformat d) = IsoNaive d)
  ∧ dict_get "doi" (to_dict item) = Some (null_or (doi item))
  ∧ dict_get "abstract" (to_dict item) = Some (null_or (abstract item))
  ∧ dict_get "journal" (to_dict item) = Some (null_or (journal item))
  ∧ dict_get "source_name" (to_dict item) = Some (null_or (source_name item))
  ∧ dict_get "excerpt" (to_dict item) = Some (null_or (excerpt item))
  ∧ dict_get "year" (to_dict item)
    = Some (match year item with Some y => PInt y | None => PNone end)
  ∧ (∀ v, pydatetime_ok v = true →
          fromisoformat (py_isoformat v)
          = match v with
            | Naive d => IsoNaive d
            | Aware d off =>
                IsoAware d (if Z.abs off <? 1000000 then 0 else off)
            end).
Proof.
  intros [[Hf Hfw] Hp] null_or.
  split.
  { unfold from_dict, from_dict_assignments, to_dict.
    destruct item as [t u ty so dp df d au ab j y sn ex rs mk].
    simpl in Hf, Hfw, Hp.
    assert (∀ d0, dp = Some d0 →
                  py_fromisoformat (PStr (py_isoformat d0))
                  = Ok (datetime_value d0))
      as Hpub
      by (intros d0 E; apply py_fromisoformat_py_isoformat; by apply Hp).
    destruct ty, so, dp as [dp |]; simpl;
      repeat (first [ rewrite py_isoformat_not_empty
                    | rewrite (Hpub dp eq_refl)
                    | rewrite (py_fromisoformat_py_isoformat df Hf Hfw)
                    | rewrite authors_from_asdict ]; simpl);
      unfold DigestItem_kwargs, kwarg; simpl;
      rewrite ?as_opt_datetime_value, ?as_opt_datetime_None,
        ?as_datetime_value, as_author_object, as_str_PStr; simpl;
      destruct d, ab, j, y, sn, ex; simpl; eauto. }
  assert (∀ d, date_published item = Some d →
               fromisoformat (py_isoformat d) = parsed d) as Hpub
    by (intros d Hd; apply fromisoformat_py_isoformat; by apply Hp).
  pose proof (fromisoformat_py_isoformat _ Hf Hfw) as Hfetched.
  pose proof (ItemType_of_value (item_type item)) as Hty.
  pose proof (SourceType_of_value (source_type item)) as Hso.
  assert (∀ d, date_fetched item = Naive d →
               dict_get "date_fetched" (to_dict item)
               = Some (PStr (isoformat d))
               ∧ fromisoformat (isoformat d) = IsoNaive d) as Hfn.
  { intros d E. rewrite E in Hfetched. split; [| exact Hfetched].
    unfold to_dict, asdict. rewrite E. by destruct (date_published item). }
  assert (∀ d, date_published item = Some (Naive d) →
               dict_get "date_published" (to_dict item)
               = Some (PStr (isoformat d))
               ∧ fromisoformat (isoformat d) = IsoNaive d) as Hpn.
  { intros d E. split; [| exact (Hpub _ E)].
    unfold to_dict, asdict. by rewrite E. }
  assert (∀ k v, dict_get k (asdict item) = Some v →
                 k ≠ "item_type"%string → k ≠ "source_type"%string →
                 k ≠ "date_published"%string → k ≠ "date_fetched"%string →
                 dict_get k (to_dict item) = Some v) as Hother.
  { intros k v E H1 H2 H3 H4. unfold to_dict.
    destruct (date_published item);
      rewrite ?(dict_get_set_ne "date_fetched"),
        ?(dict_get_set_ne "date_published"),
        ?(dict_get_set_ne "source_type"),
        ?(dict_get_set_ne "item_type") by done; done. }
  split; [unfold to_dict, asdict; by destruct (date_published item) |].
  split; [done |].
  split; [unfold to_dict, asdict; by destruct (date_published item) |].
  split; [done |].
  split; [unfold to_dict, asdict; by destruct (date_published item) |].
  split; [done |].
  split; [unfold to_dict, asdict; by destruct (date_published item) |].
  split; [done |].
  split; [done |].
  split; [done |].
  repeat (split; [by apply Hother |]).
  intros v Hv. rewrite (fromisoformat_read_back v Hv). by destruct v.
Qed.
End SerializationFacts.

(** C9, as stated, fails on an item dated with a UTC offset of one
    microsecond: [to_dict] writes the offset, [fromisoformat] reads it
    as UTC, and the item that [from_dict] returns is dated a microsecond
    later than the one that was written. *)
Lemma from_dict_to_dict_loses_small_offset :
  pydatetime_ok (Aware (mkdt 2024 1 1 0 0 0 0) 1) = true
  ∧ dict_get "date_published" (to_dict article_small_offset)
    = Some (PStr "2024-01-01T00:00:00+00:00:00.000001")
  ∧ fromisoformat "2024-01-01T00:00:00+00:00:00.000001"
    = IsoAware (mkdt 2024 1 1 0 0 0 0) 0
  ∧ (∃ data', from_dict sample_time (to_dict article_small_offset)
              = Ok (data', Some article_utc))
  ∧ date_published article_utc ≠ date_published article_small_offset
  ∧ datetime_eq (Aware (mkdt 2024 1 1 0 0 0 0) 0)
                (Aware (mkdt 2024 1 1 0 0 0 0) 1) = false
  ∧ article_utc ≠ article_small_offset.
Proof.
  split; [by vm_compute |].
  split; [by vm_compute |].
  split; [by vm_compute |].
  split; [eexists; by vm_compute |].
  split; [done |].
  split; [by vm_compute |].
  done.
Qed.

Lemma from_dict_to_dict_witness :
  item_ok paper_b
  ∧ ∃ data', from_dict sample_time (to_dict paper_b) = Ok (data', Some paper_b).
Proof.
  assert (item_ok paper_b) as Hok.
  { split; [by split |]. intros d [= <-]. by split. }
  split; [exact Hok |].
  apply (from_dict_to_dict sample_time paper_b Hok).
Defined.

(** ** What [from_dict] does to its argument *)

Section MutationFacts.

Lemma bind_Ok {A B} (r : result A) (k : A → result B) b :
  bind r k = Ok b → ∃ a, r = Ok a ∧ k a = Ok b.
Proof. destruct r as [a | e]; simpl; [eauto | done]. Qed.

Lemma dict_item_Ok k (d : pydict) v : dict_item k d = Ok v → dict_get k d = Some v.
Proof. unfold dict_item. destruct (dict_get k d); [congruence | done]. Qed.

Lemma ItemType_of_PStr s t : ItemType_of (PStr s) = Ok t → ItemType_value t = s.
Proof.
  simpl. destruct (String.eqb s "paper") eqn:E1.
  { apply String.eqb_eq in E1. by intros [= <-]. }
  destruct (String.eqb s "article") eqn:E2; [| done].
  apply String.eqb_eq in E2. by intros [= <-].
Qed.

Lemma SourceType_of_PStr s t :
  SourceType_of (PStr s) = Ok t → SourceType_value t = s.
Proof.
  simpl. destruct (String.eqb s "semantic_scholar") eqn:E1.
  { apply String.eqb_eq in E1. by intros [= <-]. }
  destruct (String.eqb s "pubmed") eqn:E2.
  { apply String.eqb_eq in E2. by intros [= <-]. }
  destruct (String.eqb s "rss") eqn:E3; [| done].
  apply String.eqb_eq in E3. by intros [= <-].
Qed.

Lemma py_fromisoformat_Ok v d :
  py_fromisoformat v = Ok d →
  (∃ s, v = PStr s) ∧ is_datetime_object d = true.
Proof.
  destruct v; simpl; try done.
  destruct (fromisoformat s); intros [= <-]; eauto.
Qed.

Lemma Author_kwargs_Ok a v :
  Author_kwargs a = Ok v → is_author_object v = true.
Proof.
  destruct a; simpl; try done.
  destruct (check_kwargs _ _ _); simpl; [| done]. by intros [= <-].
Qed.

Lemma map_result_Author_kwargs l l' :
  map_result Author_kwargs l = Ok l' →
  Forall (fun v => is_author_object v = true) l'.
Proof.
  revert l'. induction l as [| a l IH]; intros l'; simpl.
  - intros [= <-]. constructor.
  - intros (v & Ev & H)%bind_Ok. apply bind_Ok in H as (vs & Evs & [= <-]).
    constructor; [by eapply Author_kwargs_Ok | by apply IH].
Qed.

(** One of the two date assignments of [from_dict]. *)
Lemma date_assignment k (data data' : pydict) :
  (if truthy (dict_get_default k PNone data)
   then bind (dict_item k data) (fun v =>
        bind (py_fromisoformat v) (fun d => Ok (dict_set k d data)))
   else Ok data) = Ok data' →
  (∀ k', k ≠ k' → dict_get k' data' = dict_get k' data)
  ∧ (truthy (dict_get_default k PNone data) = true →
     ∃ s v, dict_get k data = Some (PStr s)
            ∧ py_fromisoformat (PStr s) = Ok v
            ∧ dict_get k data' = Some v
            ∧ is_datetime_object v = true).
Proof.
  destruct (truthy _) eqn:Et.
  - intros (v & Ev%dict_item_Ok & H)%bind_Ok.
    apply bind_Ok in H as (d & Ed & [= <-]).
    split; [intros k' Hne; by apply dict_get_set_ne |].
    intros _. destruct (py_fromisoformat_Ok _ _ Ed) as [[s ->] Hd].
    exists s, d. by rewrite dict_get_set_eq.
  - intros [= <-]. by split.
Qed.

Lemma dict_get_default_eq k dflt (d d' : pydict) :
  dict_get k d' = dict_get k d →
  dict_get_default k dflt d' = dict_get_default k dflt d.
Proof. unfold dict_get_default. by intros ->. Qed.

Lemma from_dict_assignments_spec data data' :
  from_dict_assignments data = Ok data' →
  (∃ t, dict_get "item_type" data' = Some (PItemType t)
        ∧ ∀ s, dict_get "item_type" data = Some (PStr s) →
               ItemType_value t = s)
  ∧ (∃ t, dict_get "source_type" data' = Some (PSourceType t)
          ∧ ∀ s, dict_get "source_type" data = Some (PStr s) →
                 SourceType_value t = s)
  ∧ (∀ k, k = "date_published"%string ∨ k = "date_fetched"%string →
          truthy (dict_get_default k PNone data) = true →
          ∃ s v, dict_get k data = Some (PStr s)
                 ∧ py_fromisoformat (PStr s) = Ok v
                 ∧ dict_get k data' = Some v
                 ∧ is_datetime_object v = true)
  ∧ (∃ l, dict_get "authors" data' = Some (PList l)
          ∧ Forall (fun v => is_author_object v = true) l).
Proof.
  unfold from_dict_assignments.
  intros (v1 & Ev1%dict_item_Ok & H)%bind_Ok.
  apply bind_Ok in H as (t & Et & H).
  apply bind_Ok in H as (v2 & Ev2%dict_item_Ok & H).
  apply bind_Ok in H as (so & Eso & H).
  apply bind_Ok in H as (d3 & [Hf3 Hd3]%date_assignment & H).
  apply bind_Ok in H as (d4 & [Hf4 Hd4]%date_assignment & H).
  apply bind_Ok in H as (l & El & H).
  apply bind_Ok in H as (l' & El' & [= <-]).
  rewrite dict_get_set_ne in Ev2 by done.
  split; [| split; [| split]].
  - exists t. split.
    + rewrite dict_get_set_ne, Hf4, Hf3 by done.
      rewrite dict_get_set_ne by done. apply dict_get_set_eq.
    + intros s Es. rewrite Es in Ev1. injection Ev1 as <-.
      by apply ItemType_of_PStr.
  - exists so. split.
    + rewrite dict_get_set_ne, Hf4, Hf3 by done. apply dict_get_set_eq.
    + intros s Es. rewrite Es in Ev2. injection Ev2 as <-.
      by apply SourceType_of_PStr.
  - intros k [-> | ->] Hk.
    + destruct Hd3 as (s & v & Es & Ev & Eg & Hv).
      { erewrite dict_get_default_eq; [exact Hk |].
        by rewrite !dict_get_set_ne. }
      exists s, v. rewrite !dict_get_set_ne in Es by done.
      split; [done |]. split; [done |]. split; [| done].
      by rewrite dict_get_set_ne, Hf4.
    + destruct Hd4 as (s & v & Es & Ev & Eg & Hv).
      { erewrite dict_get_default_eq; [exact Hk |].
        by rewrite Hf3, !dict_get_set_ne. }
      exists s, v. rewrite Hf3, !dict_get_set_ne in Es by done.
      split; [done |]. split; [done |]. split; [| done].
      by rewrite dict_get_set_ne.
  - exists l'. split; [apply dict_get_set_eq |].
    by eapply map_result_Author_kwargs.
Qed.

(** C10: [from_dict] rewrites the dictionary it is given. After a call
    that returns, the caller's dictionary holds a member of [ItemType]
    under ["item_type"] and of [SourceType] under ["source_type"] (the
    members whose tags were there), a [datetime] object under each date
    key that held a non-empty ISO string (the one that the string
    parses to), and a list of [Author] objects under ["authors"]; a
    dictionary that came with a string tag is therefore not the same
    afterwards. *)
Theorem from_dict_mutates_argument (now : datetime) (data data' : pydict)
    (item : option DigestItem) :
  from_dict now data = Ok (data', item) →
  (∃ t, dict_get "item_type" data' = Some (PItemType t)
        ∧ ∀ s, dict_get "item_type" data = Some (PStr s) →
               ItemType_value t = s)
  ∧ (∃ t, dict_get "source_type" data' = Some (PSourceType t)
          ∧ ∀ s, dict_get "source_type" data = Some (PStr s) →
                 SourceType_value t = s)
  ∧ (∀ k, k = "date_published"%string ∨ k = "date_fetched"%string →
          truthy (dict_get_default k PNone data) = true →
          ∃ s v, dict_get k data = Some (PStr s)
                 ∧ py_fromisoformat (PStr s) = Ok v
                 ∧ dict_get k data' = Some v
                 ∧ is_datetime_object v = true)
  ∧ (∃ l, dict_get "authors" data' = Some (PList l)
          ∧ Forall (fun v => is_author_object v = true) l)
  ∧ ((∃ s, dict_get "item_type" data = Some (PStr s)) → data' ≠ data).
Proof.
  unfold from_dict. intros (d & Ed & H)%bind_Ok.
  apply bind_Ok in H as (it & _ & [= <- _]).
  destruct (from_dict_assignments_spec _ _ Ed) as (Hty & Hso & Hdt & Hau).
  repeat (split; [done |]).
  intros [s Es] ->. destruct Hty as (t & Et & _). congruence.
Qed.
End MutationFacts.

Lemma from_dict_mutates_argument_witness :
  from_dict sample_time (to_dict paper_b)
    = Ok (paper_b_after_from_dict, Some paper_b)
  ∧ paper_b_after_from_dict ≠ to_dict paper_b.
Proof.
  assert (from_dict sample_time (to_dict paper_b)
          = Ok (paper_b_after_from_dict, Some paper_b)) as H
    by (vm_compute; reflexivity).
  split; [exact H |].
  apply (from_dict_mutates_argument sample_time (to_dict paper_b)
           paper_b_after_from_dict (Some paper_b) H).
  exists "paper"%string. reflexivity.
Defined.

(** ** The examples of the specification *)

Example filter_relevant_example :
  filter_relevant (RelevanceFilter_init two_keywords 1)
                  [article_retreats; article_tips]
  = [set_relevance article_retreats 1 ["meditation"%string]].
Proof. reflexivity. Qed.

Example score_and_sort_tie_example :
  ∃ out,
    score_and_sort (RelevanceFilter_init two_keywords 1)
      [article_tips; article_first; article_retreats; article_second]
    = Ok out
    ∧ map title out
      = ["Mindfulness at work"; "A Study of Meditation Retreats";
         "Mindfulness at school"; "Urban Gardening Tips"]%string.
Proof. eexists. split; reflexivity. Qed.

Example cleanup_old_scenario :
  ∃ self',
    cleanup_old ticking_clock
      (mkFilter {["doi:10.1/x"%string := old_entry]} 0) 90 = Ok self'
    ∧ is_seen self' paper_a = false.
Proof. eexists. split; by vm_compute. Qed.
